(** * The Cyberdesk operator: reconciliation handlers

    A shallow embedding of [services/cyberdesk-operator/handlers/controller.py].

    The handlers of the operator are Python functions that talk to the
    Kubernetes API server, to Supabase, to the gateway and to the clock, that
    log, that write into kopf's [patch] object and that end by returning or
    by raising.  They are embedded as programs of a small monad:

    - every call that leaves the process is a [request]; the program is a
      tree that branches on the answer ([prog]), so a statement about a
      handler holds for every behaviour of the outside world;
    - kopf's [patch.status] is threaded as state and survives a raise, since
      kopf applies the patch whatever the outcome of the handler;
    - Python exceptions are values of [exn] and [try_except] embeds
      [try: ... except ...:].

    Kubernetes objects are given as records with the fields the operator
    reads or writes.  Label dictionaries are finite maps.  Instants are
    integers (microseconds since the epoch, UTC); the functions of the
    library that go through strings ([isoformat] and [fromisoformat] of
    [datetime], the test of the URL in [urllib.request.Request]) are
    parameters of the handlers, as is the configuration read from the
    environment. *)

From Stdlib Require Import ZArith Lia DecimalString DecimalZ.
From stdpp Require Import gmap strings list fin_maps pretty.

Local Open Scope string_scope.
Local Open Scope Z_scope.

(** ** Constants *)

Definition CYBERDESK_GROUP := "cyberdesk.io".
Definition CYBERDESK_VERSION := "v1alpha1".
Definition CYBERDESK_PLURAL := "cyberdesks".
Definition KUBEVIRT_GROUP := "kubevirt.io".
Definition KUBEVIRT_VERSION := "v1".
Definition KUBEVIRT_VM_PLURAL := "virtualmachines".
Definition KUBEVIRT_VMI_PLURAL := "virtualmachineinstances".
Definition MANAGED_BY := "cyberdesk-operator".
Definition CLONE_GROUP := "clone.kubevirt.io".
Definition CLONE_VERSION := "v1beta1".
Definition CLONE_PLURAL := "virtualmachineclones".
Definition GOLDEN_SNAPSHOT_NAME := "snapshot-golden-vm".
Definition SNAPSHOT_GROUP := "snapshot.kubevirt.io".

(** ** Enums *)

Inductive KubeVirtVMIPhase :=
  PENDING | SCHEDULING | SCHEDULED | RUNNING | SUCCEEDED | FAILED | UNKNOWN.

Inductive SupabaseInstanceStatus :=
  S_PENDING | S_RUNNING | S_TERMINATED | S_ERROR.

(** [KubeVirtVMIPhase(s)]: the member whose value is [s]; Python raises
    [ValueError] when there is none, which is [None] here. *)
Definition KubeVirtVMIPhase_of_value (s : string) : option KubeVirtVMIPhase :=
  if String.eqb s "Pending" then Some PENDING
  else if String.eqb s "Scheduling" then Some SCHEDULING
  else if String.eqb s "Scheduled" then Some SCHEDULED
  else if String.eqb s "Running" then Some RUNNING
  else if String.eqb s "Succeeded" then Some SUCCEEDED
  else if String.eqb s "Failed" then Some FAILED
  else if String.eqb s "Unknown" then Some UNKNOWN
  else None.

(** [.value] of a member of [SupabaseInstanceStatus]. *)
Definition SupabaseInstanceStatus_value (t : SupabaseInstanceStatus) : string :=
  match t with
  | S_PENDING => "pending"
  | S_RUNNING => "running"
  | S_TERMINATED => "terminated"
  | S_ERROR => "error"
  end.

(** The dictionary [VMI_PHASE_TO_SUPABASE_STATUS], in the order of the
    source. *)
Definition VMI_PHASE_TO_SUPABASE_STATUS
  : list (KubeVirtVMIPhase * SupabaseInstanceStatus) :=
  [ (PENDING, S_PENDING);
    (SCHEDULING, S_PENDING);
    (SCHEDULED, S_PENDING);
    (RUNNING, S_PENDING);
    (SUCCEEDED, S_TERMINATED);
    (FAILED, S_ERROR);
    (UNKNOWN, S_ERROR) ].

Definition KubeVirtVMIPhase_eqb (a b : KubeVirtVMIPhase) : bool :=
  match a, b with
  | PENDING, PENDING | SCHEDULING, SCHEDULING | SCHEDULED, SCHEDULED
  | RUNNING, RUNNING | SUCCEEDED, SUCCEEDED | FAILED, FAILED
  | UNKNOWN, UNKNOWN => true
  | _, _ => false
  end.

(** [d.get(k, dflt)] on the mapping above. *)
Fixpoint dict_get {V} (d : list (KubeVirtVMIPhase * V)) (k : KubeVirtVMIPhase)
    (dflt : V) : V :=
  match d with
  | [] => dflt
  | (k', v) :: d' => if KubeVirtVMIPhase_eqb k' k then v else dict_get d' k dflt
  end.

(** ** Kubernetes objects, as far as the operator looks into them *)

(** A VirtualMachine.  [vm_name] is [metadata.name] (the pool claimer guards
    against a missing one), [vm_labels] is [metadata.labels],
    [vm_template_labels] is [spec.template.metadata.labels]. *)
Record vm := {
  vm_name : option string;
  vm_labels : gmap string string;
  vm_ownerReferences : list string;
  vm_runStrategy : option string;
  vm_template_labels : gmap string string;
  vm_hostname : option string;
  vm_printableStatus : option string
}.

(** A VirtualMachineInstance: [status.phase] and, for each entry of
    [status.interfaces], its [ipAddress]. *)
Record vmi := {
  vmi_phase : option string;
  vmi_interfaces : list (option string)
}.

(** A VirtualMachineClone: [status.phase]. *)
Record clone := {
  clone_phase : option string
}.

(** The body of a patch of a VirtualMachine.  A field that is [None] is a key
    that the body does not have.  [vp_ownerReferences_null] stands for the
    entry ["ownerReferences": None]. *)
Record vm_patch := {
  vp_ownerReferences_null : bool;
  vp_labels : option (gmap string string);
  vp_runStrategy : option string;
  vp_template_labels : option (gmap string string);
  vp_hostname : option string
}.

(** The [readinessProbe] of the clone target. *)
Record probe := {
  probe_command : list string;
  initialDelaySeconds : Z;
  periodSeconds : Z;
  failureThreshold : Z;
  successThreshold : Z
}.

(** A typed object reference ([apiGroup], [kind], [name]). *)
Record objref := {
  ref_apiGroup : string;
  ref_kind : string;
  ref_name : string
}.

(** The manifest of a VirtualMachineClone, as [cyberdesk_create] builds it. *)
Record clone_body := {
  cb_apiVersion : string;
  cb_kind : string;
  cb_name : string;
  cb_namespace : string;
  cb_labels : gmap string string;
  cb_source : objref;
  cb_target : objref;
  cb_target_readinessProbe : probe
}.

(** [kubernetes.client.ApiException]. *)
Record ApiException := {
  status : Z;
  reason : string
}.

(** ** The outside world *)

(** The calls that leave the process.  The first group are the methods of
    [CUSTOM_OBJECTS_API], one constructor per method and resource (group,
    version and plural are fixed by the resource). *)
Inductive request :=
  | list_vm (namespace label_selector : string)
  | get_vm (namespace name : string)
  | patch_vm (namespace name : string) (body : vm_patch)
  | delete_vm (namespace name : string)
  | get_vmi (namespace name : string)
  | get_clone (namespace name : string)
  | create_clone (namespace : string) (body : clone_body)
  | delete_clone (namespace name : string)
  | delete_cyberdesk (namespace name : string)
  | datetime_now
  | urlopen_post (url : string) (timeout : Z)
  | supabase_select_status (id : string)
  | supabase_update_status (id : string) (value : string).

(** What a call answers.  An API call answers an [ApiException] or its
    result.  [datetime_now] answers an aware UTC instant, in microseconds
    since the epoch.  [urlopen_post] is [urlopen] on a POST request: see
    [urlopen_reply].  The Supabase calls answer [None] for an exception,
    which the source catches as [Exception]; a select answers the [status]
    column of the rows it found. *)
(** What [urlopen] does: it returns a response, of which the status is
    kept; or it raises one of the errors that the source names in its
    [except] clauses ([URLError], [HTTPError], [TimeoutError], with
    [socket.timeout], which is [TimeoutError]); or it raises another
    exception. *)
Inductive urlopen_reply :=
  | Responded (code : Z)
  | NamedError
  | OtherError.

Definition reply (r : request) : Type :=
  match r with
  | list_vm _ _ => ApiException + list vm
  | get_vm _ _ => ApiException + vm
  | patch_vm _ _ _ => ApiException + unit
  | delete_vm _ _ => ApiException + unit
  | get_vmi _ _ => ApiException + vmi
  | get_clone _ _ => ApiException + clone
  | create_clone _ _ => ApiException + clone
  | delete_clone _ _ => ApiException + unit
  | delete_cyberdesk _ _ => ApiException + unit
  | datetime_now => Z
  | urlopen_post _ _ => urlopen_reply
  | supabase_select_status _ => option (list string)
  | supabase_update_status _ _ => option unit
  end.

(** Levels of the [logging] module ([logger.exception] logs at [ERROR]). *)
Inductive level := DEBUG | INFO | WARNING | ERROR | CRITICAL.

(** Programs: a tree of log lines and of calls, branching on the answers.
    Of a log line the level is kept, not the text. *)
Inductive prog (A : Type) : Type :=
  | Ret (a : A)
  | Say (lvl : level) (k : prog A)
  | Ask (r : request) (k : reply r → prog A).

Arguments Ret {A} a.
Arguments Say {A} lvl k.
Arguments Ask {A} r k.

Fixpoint prog_bind {A B} (p : prog A) (f : A → prog B) : prog B :=
  match p with
  | Ret a => f a
  | Say lvl k => Say lvl (prog_bind k f)
  | Ask r k => Ask r (λ x, prog_bind (k x) f)
  end.

(** Exceptions of the handlers.  The delay of a [TemporaryError] is [None]
    when the source leaves it to kopf's default.  [OtherException] stands
    for an exception of [urlopen] that is none of those the source names in
    its [except] clauses (an [http.client.RemoteDisconnected], for
    instance). *)
Inductive exn :=
  | ApiError (e : ApiException)
  | TemporaryError (delay : option Z)
  | PermanentError
  | ValueError
  | TypeError
  | OverflowError
  | OtherException.

Inductive result (A : Type) : Type :=
  | Returned (a : A)
  | Raised (e : exn).

Arguments Returned {A} a.
Arguments Raised {A} e.

(** A status dictionary as read from the resource, and as written into the
    patch, where a key may be mapped to [None] (JSON null). *)
Abbreviation status_dict := (gmap string string).
Abbreviation patch_dict := (gmap string (option string)).

(** [patch.status]: the sub-dictionaries written by the handler, by key. *)
Abbreviation kpatch := (gmap string patch_dict).

(** The monad of the handlers. *)
Definition M (A : Type) : Type := kpatch → prog (result A * kpatch).

Definition ret {A} (a : A) : M A := λ p, Ret (Returned a, p).

Definition bind {A B} (m : M A) (f : A → M B) : M B :=
  λ p, prog_bind (m p) (λ '(r, p'),
    match r with
    | Returned a => f a p'
    | Raised e => Ret (Raised e, p')
    end).

Definition raise {A} (e : exn) : M A := λ p, Ret (Raised e, p).

(** [try: m except e: h e].  A handler that does not catch [e] re-raises it. *)
Definition try_except {A} (m : M A) (h : exn → M A) : M A :=
  λ p, prog_bind (m p) (λ '(r, p'),
    match r with
    | Returned a => Ret (Returned a, p')
    | Raised e => h e p'
    end).

Definition say (lvl : level) : M unit := λ p, Say lvl (Ret (Returned tt, p)).

Definition ask (r : request) : M (reply r) :=
  λ p, Ask r (λ x, Ret (Returned x, p)).

(** An API call, raising the [ApiException] it answers. *)
Definition api {A} (r : request) (cast : reply r → ApiException + A) : M A :=
  bind (ask r) (λ x,
    match cast x with
    | inl e => raise (ApiError e)
    | inr a => ret a
    end).

Definition get_patch : M kpatch := λ p, Ret (Returned p, p).
Definition put_patch (p' : kpatch) : M unit := λ _, Ret (Returned tt, p').

Declare Scope handler_scope.
Delimit Scope handler_scope with handler.
Notation "'let!' x := c 'in' k" := (bind c (λ x, k))
  (at level 10, x name, c at level 100, k at level 200) : handler_scope.
Notation "c ;;; k" := (bind c (λ _, k))
  (at level 100, k at level 200, right associativity) : handler_scope.
Local Open Scope handler_scope.

(** ** Running a program against a world *)

(** What a run leaves behind: the log lines and the calls, in order. *)
Inductive action :=
  | Logged (lvl : level)
  | Called (r : request).

(** A world answers every call and moves on. *)
Definition oracle (W : Type) : Type := ∀ r : request, W → reply r * W.

Fixpoint run {W A} (o : oracle W) (p : prog A) (w : W) : A * W * list action :=
  match p with
  | Ret a => (a, w, [])
  | Say lvl k =>
      let '(a, w', tr) := run o k w in (a, w', Logged lvl :: tr)
  | Ask r k =>
      let '(x, w1) := o r w in
      let '(a, w', tr) := run o (k x) w1 in (a, w', Called r :: tr)
  end.

(** The outcome of a handler: returned or raised, the final patch, the final
    world and the trace. *)
Record outcome (W A : Type) := {
  res : result A;
  patch : kpatch;
  world : W;
  trace : list action
}.
Arguments res {W A} _.
Arguments patch {W A} _.
Arguments world {W A} _.
Arguments trace {W A} _.

Definition exec {W A} (o : oracle W) (m : M A) (p : kpatch) (w : W)
  : outcome W A :=
  let '((r, p'), w', tr) := run o (m p) w in
  {| res := r; patch := p'; world := w'; trace := tr |}.

(** The calls of a trace, without the log lines. *)
Fixpoint calls (tr : list action) : list request :=
  match tr with
  | [] => []
  | Logged _ :: tr' => calls tr'
  | Called r :: tr' => r :: calls tr'
  end.

(** The levels logged in a trace. *)
Fixpoint logged (tr : list action) : list level :=
  match tr with
  | [] => []
  | Logged l :: tr' => l :: logged tr'
  | Called _ :: tr' => logged tr'
  end.

(** ** Python idioms *)

(** [if x:] for an [Optional[str]]: [None] and the empty string are false. *)
Definition nonempty (x : option string) : option string :=
  match x with
  | Some s => if String.eqb s "" then None else Some s
  | None => None
  end.

(** The truth value of an [Optional[str]]. *)
Definition truthy (x : option string) : bool :=
  match nonempty x with
  | Some _ => true
  | None => false
  end.

(** [k in d] for a status dictionary. *)
Definition contains (d : gmap string string) (k : string) : bool :=
  match d !! k with
  | Some _ => true
  | None => false
  end.

(** [x == s] for an [Optional[str]] [x]. *)
Definition opt_eqb (x : option string) (s : string) : bool :=
  match x with
  | Some s' => String.eqb s' s
  | None => false
  end.

(** ** Supabase helpers *)

(** The target of [update_instance_status]: the [try/except ValueError/else]
    around the enum lookup. *)
Definition target_status (vmi_phase : string) : SupabaseInstanceStatus :=
  match KubeVirtVMIPhase_of_value vmi_phase with
  | None => S_ERROR
  | Some phase_enum => dict_get VMI_PHASE_TO_SUPABASE_STATUS phase_enum S_ERROR
  end.

Definition get_instance_status (instance_id : string) : M (option string) :=
  say DEBUG;;;
  let! resp := ask (supabase_select_status instance_id) in
  match resp with
  | Some data => ret (head data)
  | None => say ERROR;;; ret None
  end.

Definition update_instance_status (instance_id vmi_phase : string) : M unit :=
  let! target :=
    match KubeVirtVMIPhase_of_value vmi_phase with
    | None => say ERROR;;; ret S_ERROR
    | Some phase_enum =>
        ret (dict_get VMI_PHASE_TO_SUPABASE_STATUS phase_enum S_ERROR)
    end in
  let! r := ask (supabase_update_status instance_id
                   (SupabaseInstanceStatus_value target)) in
  match r with
  | Some _ => say INFO
  | None => say ERROR
  end.

(** The synchronizer: the handler of a change of [status.phase] of a VMI.
    [labels] is [meta.get("labels", {})]. *)
Definition vmi_phase_change (old new : option string)
    (labels : gmap string string) : M unit :=
  match new with
  | None => ret tt
  | Some new =>
      if negb (opt_eqb (labels !! "app") "cyberdesk") then say DEBUG
      else
        match nonempty (labels !! "cyberdesk-instance") with
        | None =>
            let is_warm_pool_vm :=
              opt_eqb (labels !! "pool.kubevirt.io/warm") "ready"
              || opt_eqb (labels !! "pool.kubevirt.io/in-use") "true" in
            if is_warm_pool_vm then say DEBUG else say WARNING
        | Some instance_id =>
            say INFO;;;
            try_except
              (let! current_db := get_instance_status instance_id in
               let! desired :=
                 match KubeVirtVMIPhase_of_value new with
                 | Some phase_enum =>
                     ret (SupabaseInstanceStatus_value
                            (dict_get VMI_PHASE_TO_SUPABASE_STATUS phase_enum
                               S_ERROR))
                 | None =>
                     say ERROR;;; ret (SupabaseInstanceStatus_value S_ERROR)
                 end in
               if negb (opt_eqb current_db desired)
               then say INFO;;; update_instance_status instance_id new
               else say DEBUG)
              (λ _, say ERROR)
        end
  end.

(** ** The API server: merge patch of a VirtualMachine

    The operator sends dictionaries as patch bodies, which the API server
    applies as JSON merge patches (RFC 7386): an object in the body is merged
    key by key into the object it meets, a null deletes, anything else
    replaces.  On a dictionary of labels the keys of the body win and the
    other keys stay. *)
Definition merge_labels (old : gmap string string)
    (body : option (gmap string string)) : gmap string string :=
  match body with
  | Some new => new ∪ old
  | None => old
  end.

Definition merge_field (old : option string) (body : option string)
  : option string :=
  match body with
  | Some x => Some x
  | None => old
  end.

Definition apply_vm_patch (v : vm) (body : vm_patch) : vm :=
  {| vm_name := vm_name v;
     vm_labels := merge_labels (vm_labels v) (vp_labels body);
     vm_ownerReferences :=
       if vp_ownerReferences_null body then [] else vm_ownerReferences v;
     vm_runStrategy := merge_field (vm_runStrategy v) (vp_runStrategy body);
     vm_template_labels :=
       merge_labels (vm_template_labels v) (vp_template_labels body);
     vm_hostname := merge_field (vm_hostname v) (vp_hostname body);
     vm_printableStatus := vm_printableStatus v |}.

(** A merge patch of a status dictionary. *)
Definition apply_status_patch (old : status_dict) (body : patch_dict)
  : status_dict :=
  merge (λ o b, match b with
                | Some (Some x) => Some x
                | Some None => None
                | None => o
                end) old body.

(** ** Kubernetes helpers: the warm pool *)

(** The body of the claim patch: the labels of the VM as listed, with the two
    pool labels set, and the owner references removed. *)
Definition claim_patch_body (labels : gmap string string) : vm_patch :=
  {| vp_ownerReferences_null := true;
     vp_labels :=
       Some (<["pool.kubevirt.io/warm" := "claimed"]>
               (<["pool.kubevirt.io/in-use" := "true"]> labels));
     vp_runStrategy := None;
     vp_template_labels := None;
     vp_hostname := None |}.

(** The loop [for vm in vms.get("items", [])] of [get_free_vm_from_pool]. *)
Fixpoint claim_first (namespace : string) (items : list vm)
  : M (option string) :=
  match items with
  | [] => say INFO;;; ret None
  | vm :: items' =>
      let labels := vm_labels vm in
      match nonempty (vm_name vm) with
      | None => say WARNING;;; claim_first namespace items'
      | Some vm_name =>
          if opt_eqb (labels !! "pool.kubevirt.io/in-use") "true" then
            say DEBUG;;; claim_first namespace items'
          else if negb (opt_eqb (vm_printableStatus vm) "Running") then
            say DEBUG;;; claim_first namespace items'
          else
            say INFO;;;
            let patch_body := claim_patch_body labels in
            let! r := ask (patch_vm namespace vm_name patch_body) in
            match r with
            | inr _ => say INFO;;; ret (Some vm_name)
            | inl e => say ERROR;;; claim_first namespace items'
            end
      end
  end.

Definition get_free_vm_from_pool (namespace : string) : M (option string) :=
  let pool_label_selector := "pool.kubevirt.io/warm=ready" in
  say DEBUG;;;
  let! r := ask (list_vm namespace pool_label_selector) in
  match r with
  | inl e => say ERROR;;; raise (TemporaryError (Some 15))
  | inr vms => claim_first namespace vms
  end.

(** ** Post-bind finalization *)

Definition finalize_patch_body (vm_name : string) : vm_patch :=
  {| vp_ownerReferences_null := false;
     vp_labels := Some (list_to_map [("managed-by", MANAGED_BY)]);
     vp_runStrategy := Some "Always";
     vp_template_labels :=
       Some (list_to_map [("app", "cyberdesk");
                          ("cyberdesk-instance", vm_name);
                          ("managed-by", MANAGED_BY);
                          ("kubevirt.io/domain", vm_name)]);
     vp_hostname := Some vm_name |}.

Definition _ensure_vm_patched_and_running (vm_name namespace : string)
  : M unit :=
  say INFO;;;
  let patch_body := finalize_patch_body vm_name in
  try_except
    (api (patch_vm namespace vm_name patch_body) id;;;
     say INFO)
    (λ exc, match exc with
            | ApiError e => say ERROR;;; raise (TemporaryError (Some 10))
            | _ => raise exc
            end).

(** ** Dates *)

(** [datetime.min] and [datetime.max] in UTC, in microseconds since the
    epoch: 0001-01-01T00:00:00 and 9999-12-31T23:59:59.999999. *)
Definition DATETIME_MIN : Z := -62135596800000000.
Definition DATETIME_MAX : Z := 253402300799999999.

Definition representable (t : Z) : bool :=
  (DATETIME_MIN <=? t) && (t <=? DATETIME_MAX).

(** [now + timedelta(milliseconds=ms)]: Python raises [OverflowError] when
    the sum is not a date. *)
Definition plus_milliseconds (now ms : Z) : M Z :=
  let t := now + 1000 * ms in
  if representable t then ret t else raise OverflowError.

(** What [datetime.fromisoformat] makes of a string: a [ValueError], a naive
    date, or an aware one (as its UTC instant). *)
Inductive parsed :=
  | NotIso
  | Naive (t : Z)
  | Aware (t : Z).

(** ** Writes into [patch.status] *)

(** [patch.status[key] = d] *)
Definition status_setitem (key : string) (d : patch_dict) : M unit :=
  let! p := get_patch in put_patch (<[key := d]> p).

(** [if key in patch.status: del patch.status[key]] *)
Definition status_discard (key : string) : M unit :=
  let! p := get_patch in put_patch (delete key p).

(** [if k in patch.status.get(key, {}): del patch.status[key][k]] *)
Definition status_discard_in (key k : string) : M unit :=
  let! p := get_patch in put_patch (alter (delete k) key p).

(** The three lines that clean up the old top-level status fields. *)
Definition discard_old_fields : M unit :=
  status_discard "virtualMachineRef";;;
  status_discard "startTime";;;
  status_discard "expiryTime".

(** [x in l] for an [Optional[str]] [x] and a list of strings. *)
Definition opt_in (x : option string) (l : list string) : bool :=
  match x with
  | Some s => existsb (String.eqb s) l
  | None => false
  end.

(** [{**d}] as the start of a dictionary written into the patch. *)
Definition spread (d : status_dict) : patch_dict := Some <$> d.

Section Handlers.

(** Configuration read from the environment when the module is loaded, and
    the functions of the library that go through strings: the two of
    [datetime], and the test of [urllib.request.Request], which raises a
    [ValueError] for a URL without a type (there is no scheme before a
    colon) and builds the request otherwise. *)
Variable KUBEVIRT_NAMESPACE : string.
Variable GATEWAY_BASE_URL : option string.
Variable valid_url : string → bool.
Variable isoformat : Z → string.
Variable fromisoformat : string → parsed.

(** The manifest of the clone of the golden snapshot for a desktop. *)
Definition clone_manifest (clone_op_name namespace instance_id : string)
  : clone_body :=
  {| cb_apiVersion := CLONE_GROUP +:+ "/" +:+ CLONE_VERSION;
     cb_kind := "VirtualMachineClone";
     cb_name := clone_op_name;
     cb_namespace := namespace;
     cb_labels := list_to_map [("managed-by", MANAGED_BY);
                               ("cyberdesk-instance", instance_id)];
     cb_source := {| ref_apiGroup := SNAPSHOT_GROUP;
                     ref_kind := "VirtualMachineSnapshot";
                     ref_name := GOLDEN_SNAPSHOT_NAME |};
     cb_target := {| ref_apiGroup := KUBEVIRT_GROUP;
                     ref_kind := "VirtualMachine";
                     ref_name := instance_id |};
     cb_target_readinessProbe :=
       {| probe_command :=
            ["test"; "-f"; "/var/lib/cloud/instance/boot-finished"];
          initialDelaySeconds := 30;
          periodSeconds := 10;
          failureThreshold := 3;
          successThreshold := 1 |} |}.

(** The gateway notification of the pool path: [Request] is built, which
    raises for a URL without a type before anything is sent; of the
    exceptions of [urlopen] the three named ones are logged, every other one
    leaves the block. *)
Definition notify_gateway (instance_id : string) (timeout : Z) : M unit :=
  match nonempty GATEWAY_BASE_URL with
  | None => say WARNING
  | Some base =>
      let gateway_url := base +:+ "/cyberdesk/" +:+ instance_id +:+ "/ready" in
      say INFO;;;
      if valid_url gateway_url then
        let! response := ask (urlopen_post gateway_url timeout) in
        match response with
        | Responded _ => say INFO
        | NamedError => say ERROR
        | OtherError => raise OtherException
        end
      else raise ValueError
  end.

(** The branch [if vm_ref and last_phase in [...]] of [cyberdesk_create].
    It answers [true] when the handler returns from it (the [else] of the
    [try]) and [false] when control falls through to the rest. *)
Definition already_provisioned (vm_ref namespace : string)
    (timeout_ms : Z) (current_status : status_dict) : M bool :=
  say INFO;;;
  try_except
    (_ensure_vm_patched_and_running vm_ref namespace;;;
     (if negb (contains current_status "startTime")
         || negb (contains current_status "expiryTime")
      then
        say WARNING;;;
        let! now := ask datetime_now in
        let! expiry := plus_milliseconds now timeout_ms in
        status_setitem "cyberdesk_create"
          (<["expiryTime" := Some (isoformat expiry)]>
             (<["startTime" := Some (isoformat now)]>
                (spread current_status)))
      else
        status_setitem "cyberdesk_create" (spread current_status));;;
     discard_old_fields;;;
     status_discard_in "cyberdesk_create" "cloneOperationName";;;
     ret true)
    (λ exc, match exc with
            | TemporaryError _ => raise exc
            | ApiError e =>
                if status e =? 404 then
                  say WARNING;;;
                  status_setitem "cyberdesk_create" ∅;;;
                  ret false
                else
                  say ERROR;;; raise (TemporaryError (Some 10))
            | _ => raise exc
            end).

(** The branch [if assigned_vm_name:] of [cyberdesk_create]. *)
Definition bind_pool_vm (assigned_vm_name namespace instance_id : string)
    (timeout_ms : Z) : M unit :=
  say INFO;;;
  try_except
    (let labels : gmap string string :=
       list_to_map [("app", "cyberdesk");
                    ("cyberdesk-instance", instance_id);
                    ("managed-by", MANAGED_BY)] in
     let template_labels : gmap string string :=
       list_to_map [("app", "cyberdesk");
                    ("cyberdesk-instance", instance_id);
                    ("managed-by", MANAGED_BY);
                    ("kubevirt.io/domain", instance_id)] in
     let! current_vm := api (get_vm namespace assigned_vm_name) id in
     let current_labels := vm_labels current_vm in
     let current_vmi_labels := vm_template_labels current_vm in
     let vm_patch_body :=
       {| vp_ownerReferences_null := false;
          vp_labels := Some (labels ∪ current_labels);
          vp_runStrategy := None;
          vp_template_labels := Some (template_labels ∪ current_vmi_labels);
          vp_hostname := None |} in
     api (patch_vm namespace assigned_vm_name vm_patch_body) id;;;
     say INFO;;;
     try_except
       (let! vmi := api (get_vmi namespace assigned_vm_name) id in
        let interfaces := vmi_interfaces vmi in
        let vmi_ip := match interfaces with
                      | i :: _ => i
                      | [] => None
                      end in
        let vmi_phase := vmi_phase vmi in
        if negb (truthy vmi_ip) || negb (opt_eqb vmi_phase "Running")
        then say WARNING;;; raise (TemporaryError None)
        else say INFO)
       (λ exc, match exc with
               | ApiError vmi_exc =>
                   if status vmi_exc =? 404 then
                     say WARNING;;; raise (TemporaryError None)
                   else
                     say ERROR;;; raise exc
               | _ => raise exc
               end);;;
     notify_gateway instance_id 5)
    (λ exc, match exc with
            | ApiError e => say ERROR;;; raise (TemporaryError (Some 10))
            | _ => raise exc
            end);;;
  let! now := ask datetime_now in
  let! expiry := plus_milliseconds now timeout_ms in
  say INFO;;;
  status_setitem "cyberdesk_create"
    (list_to_map [("virtualMachineRef", Some assigned_vm_name);
                  ("startTime", Some (isoformat now));
                  ("expiryTime", Some (isoformat expiry));
                  ("lastPhase", Some "AssignedFromPool");
                  ("cloneOperationName", None)]);;;
  discard_old_fields.

(** The branch that initiates cloning: the name of the clone operation is
    written into the status and the handler asks to be retried. *)
Definition initiate_cloning (instance_id : string) (clone_wait_delay : Z)
  : M unit :=
  say INFO;;;
  let clone_op_name := "clone-for-" +:+ instance_id in
  say INFO;;;
  status_setitem "cyberdesk_create"
    (list_to_map [("cloneOperationName", Some clone_op_name);
                  ("lastPhase", Some "CloningInitiated");
                  ("virtualMachineRef", None)]);;;
  raise (TemporaryError (Some clone_wait_delay)).

(** The end of [cyberdesk_create], from the safeguard
    [if not clone_op_name] on. *)
Definition check_clone_status (clone_op_name : option string)
    (namespace instance_id : string) (timeout_ms retry : Z)
    (max_clone_wait_retries clone_wait_delay : Z)
    (current_status : status_dict) : M unit :=
  match nonempty clone_op_name with
  | None => say ERROR;;; raise (TemporaryError (Some 10))
  | Some clone_op_name =>
    say INFO;;;
    try_except
      (let! clone_obj :=
         try_except
           (let! c := api (get_clone namespace clone_op_name) id in
            say DEBUG;;; ret c)
           (λ exc, match exc with
                   | ApiError e =>
                       if status e =? 404 then
                         say INFO;;;
                         let clone_body :=
                           clone_manifest clone_op_name namespace instance_id in
                         api (create_clone namespace clone_body) id;;;
                         say INFO;;;
                         raise (TemporaryError (Some clone_wait_delay))
                       else
                         say ERROR;;;
                         raise (TemporaryError (Some clone_wait_delay))
                   | _ => raise exc
                   end) in
       let clone_phase := clone_phase clone_obj in
       say INFO;;;
       if opt_eqb clone_phase "Succeeded" then
         say INFO;;;
         _ensure_vm_patched_and_running instance_id namespace;;;
         let! now := ask datetime_now in
         let! expiry := plus_milliseconds now timeout_ms in
         say INFO;;;
         status_setitem "cyberdesk_create"
           (list_to_map [("virtualMachineRef", Some instance_id);
                         ("startTime", Some (isoformat now));
                         ("expiryTime", Some (isoformat expiry));
                         ("lastPhase", Some "Cloned");
                         ("cloneOperationName", None)]);;;
         discard_old_fields
       else if opt_eqb clone_phase "Failed" then
         say ERROR;;;
         status_setitem "cyberdesk_create"
           (<["virtualMachineRef" := None]>
              (<["cloneOperationName" := None]>
                 (<["lastPhase" := Some "CloneFailed"]>
                    (spread current_status))));;;
         raise PermanentError
       else if opt_eqb clone_phase "Unknown" then
         say WARNING;;;
         raise (TemporaryError (Some clone_wait_delay))
       else
         say INFO;;;
         if retry >=? max_clone_wait_retries then
           say ERROR;;;
           try_except
             (api (delete_clone namespace clone_op_name) id;;;
              say INFO)
             (λ exc, match exc with
                     | ApiError del_exc =>
                         if negb (status del_exc =? 404)
                         then say WARNING else ret tt
                     | _ => raise exc
                     end);;;
           status_setitem "cyberdesk_create"
             (<["virtualMachineRef" := None]>
                (<["cloneOperationName" := None]>
                   (<["lastPhase" := Some "CloneTimeout"]>
                      (spread current_status))));;;
           raise PermanentError
         else
           raise (TemporaryError (Some clone_wait_delay)))
      (λ exc, match exc with
              | TemporaryError _ => raise exc
              | PermanentError => raise exc
              | ApiError e =>
                  say ERROR;;; raise (TemporaryError (Some clone_wait_delay))
              | _ => say ERROR;;; raise (TemporaryError (Some 30))
              end)
  end.

(** The handler of the creation of a Cyberdesk.  [timeoutMs] is
    [spec.get("timeoutMs")], [instance_id] is [meta["name"]],
    [current_status] is [body.get("status", {}).get("cyberdesk_create", {})]
    and [retry] is kopf's count of retries of the handler. *)
Definition cyberdesk_create (timeoutMs : option Z) (instance_id : string)
    (current_status : status_dict) (retry : Z) : M unit :=
  let namespace := KUBEVIRT_NAMESPACE in
  let timeout_ms := default 3600000 timeoutMs in
  let max_clone_wait_retries := 20 in
  let clone_wait_delay := 5 in
  say INFO;;;
  let vm_ref := current_status !! "virtualMachineRef" in
  let clone_op_name := current_status !! "cloneOperationName" in
  let last_phase := current_status !! "lastPhase" in
  let! returned :=
    match nonempty vm_ref with
    | Some vm_ref =>
        if opt_in last_phase ["AssignedFromPool"; "Cloned"; "Running"]
        then already_provisioned vm_ref namespace timeout_ms current_status
        else ret false
    | None => ret false
    end in
  if returned : bool then ret tt
  else
    match nonempty clone_op_name with
    | Some _ =>
        say INFO;;;
        check_clone_status clone_op_name namespace instance_id timeout_ms
          retry max_clone_wait_retries clone_wait_delay current_status
    | None =>
        say INFO;;;
        let! assigned_vm_name := get_free_vm_from_pool namespace in
        match nonempty assigned_vm_name with
        | Some assigned_vm_name =>
            bind_pool_vm assigned_vm_name namespace instance_id timeout_ms
        | None =>
            initiate_cloning instance_id clone_wait_delay
        end
    end.

(** The handler of the deletion of a Cyberdesk. *)
Definition cyberdesk_delete (instance_id : string)
    (current_status : status_dict) : M unit :=
  let namespace := KUBEVIRT_NAMESPACE in
  say INFO;;;
  let vm_name := current_status !! "virtualMachineRef" in
  match nonempty vm_name with
  | Some vm_name =>
      say INFO;;;
      try_except
        (api (delete_vm namespace vm_name) id;;;
         say INFO)
        (λ e, match e with
              | ApiError exc =>
                  if negb ((status exc =? 404) || (status exc =? 410)) then
                    say ERROR;;; raise (TemporaryError (Some 15))
                  else say INFO
              | _ => raise e
              end)
  | None =>
      say WARNING;;;
      let clone_op_name := current_status !! "cloneOperationName" in
      match nonempty clone_op_name with
      | Some clone_op_name =>
          say INFO;;;
          try_except
            (api (delete_clone namespace clone_op_name) id;;;
             say INFO)
            (λ exc, match exc with
                    | ApiError e =>
                        if negb (status e =? 404) then say WARNING
                        else say DEBUG
                    | _ => raise exc
                    end)
      | None => say INFO
      end
  end.

(** The interval of the timer that runs [cyberdesk_timeout_check], in
    seconds. *)
Definition timeout_check_interval : Z := 60.

(** The timer.  [instance_id] and [namespace] are read from
    [body["metadata"]]. *)
Definition cyberdesk_timeout_check (instance_id namespace : string)
    (current_status : status_dict) : M unit :=
  let expiry_str := current_status !! "expiryTime" in
  match nonempty expiry_str with
  | None => say DEBUG
  | Some expiry_str =>
      try_except
        (let! expiry_dt :=
           match fromisoformat expiry_str with
           | NotIso => raise ValueError
           | dt => ret dt
           end in
         let! now := ask datetime_now in
         let! expired :=
           match expiry_dt with
           | Aware t => ret (now >=? t)
           | _ => raise TypeError
           end in
         if expired : bool then
           say INFO;;;
           api (delete_cyberdesk namespace instance_id) id
         else ret tt)
        (λ exc, match exc with
                | ValueError => say ERROR
                | ApiError e =>
                    say ERROR;;; raise (TemporaryError (Some 30))
                | _ => raise exc
                end)
  end.

End Handlers.

(** ** A cluster to run the handlers against

    An API server that holds the objects of one namespace and answers the
    calls of the operator: a lookup of a missing object answers 404, a create
    of an existing one 409, a patch is a merge patch.  The clock stands
    still; the gateway and Supabase always answer. *)
Module Cluster.

Record cluster := {
  vms : gmap string vm;
  vmis : gmap string vmi;
  clones : gmap string clone;
  cyberdesks : gset string;
  clock : Z
}.

Definition not_found : ApiException :=
  {| status := 404; reason := "Not Found" |}.
Definition conflict : ApiException :=
  {| status := 409; reason := "Conflict" |}.

Definition set_vms (c : cluster) (m : gmap string vm) : cluster :=
  {| vms := m; vmis := vmis c; clones := clones c;
     cyberdesks := cyberdesks c; clock := clock c |}.

Definition set_clones (c : cluster) (m : gmap string clone) : cluster :=
  {| vms := vms c; vmis := vmis c; clones := m;
     cyberdesks := cyberdesks c; clock := clock c |}.

Definition set_cyberdesks (c : cluster) (s : gset string) : cluster :=
  {| vms := vms c; vmis := vmis c; clones := clones c;
     cyberdesks := s; clock := clock c |}.

(** The only selector the operator uses is an equality on one label. *)
Definition selected (label_selector : string) (v : vm) : bool :=
  if String.eqb label_selector "pool.kubevirt.io/warm=ready"
  then opt_eqb (vm_labels v !! "pool.kubevirt.io/warm") "ready"
  else true.

Definition lookup_or_404 {A} (m : gmap string A) (name : string)
  : ApiException + A :=
  match m !! name with
  | Some x => inr x
  | None => inl not_found
  end.

Definition api_server : oracle cluster :=
  λ r c,
    match r as r0 return reply r0 * cluster with
    | list_vm _ sel =>
        (inr (filter (λ v, selected sel v = true) (map_to_list (vms c)).*2), c)
    | get_vm _ name => (lookup_or_404 (vms c) name, c)
    | patch_vm _ name body =>
        match vms c !! name with
        | Some v => (inr tt, set_vms c (<[name := apply_vm_patch v body]> (vms c)))
        | None => (inl not_found, c)
        end
    | delete_vm _ name =>
        match vms c !! name with
        | Some _ => (inr tt, set_vms c (delete name (vms c)))
        | None => (inl not_found, c)
        end
    | get_vmi _ name => (lookup_or_404 (vmis c) name, c)
    | get_clone _ name => (lookup_or_404 (clones c) name, c)
    | create_clone _ body =>
        match clones c !! cb_name body with
        | Some _ => (inl conflict, c)
        | None =>
            let new := {| clone_phase := None |} in
            (inr new, set_clones c (<[cb_name body := new]> (clones c)))
        end
    | delete_clone _ name =>
        match clones c !! name with
        | Some _ => (inr tt, set_clones c (delete name (clones c)))
        | None => (inl not_found, c)
        end
    | delete_cyberdesk _ name =>
        if bool_decide (name ∈ cyberdesks c)
        then (inr tt, set_cyberdesks c (cyberdesks c ∖ {[name]}))
        else (inl not_found, c)
    | datetime_now => (clock c, c)
    | urlopen_post _ _ => (Responded 200, c)
    | supabase_select_status _ => (Some [], c)
    | supabase_update_status _ _ => (Some tt, c)
    end.

(** A server that refuses every API call with the same error. *)
Definition refusing (e : ApiException) : oracle unit :=
  λ r w,
    match r as r0 return reply r0 * unit with
    | list_vm _ _ => (inl e, w)
    | get_vm _ _ => (inl e, w)
    | patch_vm _ _ _ => (inl e, w)
    | delete_vm _ _ => (inl e, w)
    | get_vmi _ _ => (inl e, w)
    | get_clone _ _ => (inl e, w)
    | create_clone _ _ => (inl e, w)
    | delete_clone _ _ => (inl e, w)
    | delete_cyberdesk _ _ => (inl e, w)
    | datetime_now => (0, w)
    | urlopen_post _ _ => (NamedError, w)
    | supabase_select_status _ => (None, w)
    | supabase_update_status _ _ => (None, w)
    end.

(** Dates as decimal numbers of microseconds, for the examples. *)
Definition isoformat (t : Z) : string := pretty t.

(** The URLs with a type, for the examples: those of HTTP. *)
Definition valid_url (url : string) : bool :=
  String.prefix "http://" url || String.prefix "https://" url.
Definition fromisoformat (s : string) : parsed :=
  if String.eqb s "0" then Aware 0
  else if String.eqb s "naive" then Naive 0
  else NotIso.

Definition empty_vm (name : string) : vm :=
  {| vm_name := Some name; vm_labels := ∅; vm_ownerReferences := [];
     vm_runStrategy := None; vm_template_labels := ∅; vm_hostname := None;
     vm_printableStatus := None |}.

(** Examples: a cluster without objects; a cluster where the clone of the
    golden snapshot for the desktop [desk-2] exists, in a given phase, next
    to its target VM; a cluster with one warm VM in the pool. *)
Definition empty_cluster : cluster :=
  {| vms := ∅; vmis := ∅; clones := ∅; cyberdesks := ∅; clock := 1000000 |}.

Definition cluster_with_clone (phase : option string) : cluster :=
  {| vms := {[ "desk-2" := empty_vm "desk-2" ]};
     vmis := ∅;
     clones := {[ "clone-for-desk-2" := {| clone_phase := phase |} ]};
     cyberdesks := {[ "desk-2" ]};
     clock := 1000000 |}.

Definition cloning_desk : status_dict :=
  list_to_map [("cloneOperationName", "clone-for-desk-2");
               ("lastPhase", "CloningInitiated")].

Definition cloned_desk_without_times : status_dict :=
  list_to_map [("virtualMachineRef", "desk-2"); ("lastPhase", "Cloned")].

Definition warm_vm : vm :=
  {| vm_name := Some "vm-a";
     vm_labels := list_to_map [("pool.kubevirt.io/warm", "ready");
                               ("app", "cyberdesk")];
     vm_ownerReferences := ["vm-pool"];
     vm_runStrategy := Some "Always";
     vm_template_labels := ∅;
     vm_hostname := None;
     vm_printableStatus := Some "Running" |}.

Definition cluster_with_pool : cluster :=
  {| vms := {[ "vm-a" := warm_vm ]};
     vmis := {[ "vm-a" := {| vmi_phase := Some "Running";
                             vmi_interfaces := [Some "10.0.0.5"] |} ]};
     clones := ∅;
     cyberdesks := {[ "desk-1" ]};
     clock := 1000000 |}.

(** The reconciliation of the desktop [desk-1] in a world. *)
Definition reconcile_desk_1 (st : status_dict) (c : cluster)
  : outcome cluster unit :=
  exec api_server
    (cyberdesk_create "kubevirt" None valid_url isoformat (Some 600000) "desk-1" st 0)
    ∅ c.

End Cluster.


(** * Vocabulary of the properties *)

(** The table of the specification, from the phase of a VMI to the value of
    the external status row: [Pending], [Scheduling], [Scheduled] and
    [Running] give [pending], [Succeeded] gives [terminated], and [Failed],
    [Unknown] and every other string give [error]. *)
Definition spec_external_status (phase : string) : string :=
  if bool_decide (phase ∈ ["Pending"; "Scheduling"; "Scheduled"; "Running"])
  then "pending"
  else if bool_decide (phase = "Succeeded") then "terminated"
  else "error".

(** The rows written to Supabase in a trace: identifier and value. *)
Definition updates (tr : list action) : list (string * string) :=
  omap (λ a, match a with
             | Called (supabase_update_status id v) => Some (id, v)
             | _ => None
             end) tr.

(** The calls of the pool claimer: the list and the claim patches. *)
Definition pool_call (r : request) : bool :=
  match r with
  | list_vm _ _ | patch_vm _ _ _ => true
  | _ => false
  end.

(** The creation of a clone object. *)
Definition creates_any_clone (r : request) : bool :=
  match r with
  | create_clone _ _ => true
  | _ => false
  end.

(** The test [vm_ref and last_phase in [...]] at the head of
    [cyberdesk_create]: the desktop is bound and the handler only re-applies
    the finalization. *)
Definition bound_steady (st : status_dict) : bool :=
  truthy (st !! "virtualMachineRef")
  && opt_in (st !! "lastPhase") ["AssignedFromPool"; "Cloned"; "Running"].

(** A phase of a clone operation that is none of [Succeeded], [Failed] and
    [Unknown]: the operation is in progress. *)
Definition in_progress (clone_phase : option string) : bool :=
  negb (opt_eqb clone_phase "Succeeded")
  && negb (opt_eqb clone_phase "Failed")
  && negb (opt_eqb clone_phase "Unknown").

(** The status of the resource once kopf has applied the patch of the
    handler. *)
Definition status_after (st : status_dict) (p : kpatch) : status_dict :=
  match p !! "cyberdesk_create" with
  | Some d => apply_status_patch st d
  | None => st
  end.

(** A patch dictionary sets a key when it maps it to a value that is not
    null. *)
Definition sets (d : patch_dict) (k : string) : Prop :=
  ∃ v, d !! k = Some (Some v).

(** Invariant I1 on a status: [virtualMachineRef] and [cloneOperationName]
    are not both present. *)
Definition mutually_exclusive (st : status_dict) : Prop :=
  ¬ (is_Some (st !! "virtualMachineRef")
     ∧ is_Some (st !! "cloneOperationName")).

(** The statuses that the reconciler can produce: from a resource without a
    status, any number of invocations of [cyberdesk_create], each with a
    fresh patch and against any world, each followed by the application of
    its patch. *)
Inductive reachable (namespace : string) (gateway : option string)
    (valid_url : string → bool) (isoformat : Z → string)
  : status_dict → Prop :=
  | reachable_new : reachable namespace gateway valid_url isoformat ∅
  | reachable_reconciled st (W : Type) (o : oracle W) (w : W)
      (timeoutMs : option Z) (instance_id : string) (retry : Z) :
      reachable namespace gateway valid_url isoformat st →
      reachable namespace gateway valid_url isoformat
        (status_after st
           (patch (exec o
                     (cyberdesk_create namespace gateway valid_url isoformat timeoutMs
                        instance_id st retry) ∅ w))).

(** What [cyberdesk_create] can leave in the patch, with respect to the two
    references: nothing; a null [virtualMachineRef]; a null
    [cloneOperationName] next to a [virtualMachineRef]; or, on the re-patch
    of a bound desktop, the [virtualMachineRef] of the status and no
    [cloneOperationName] key. *)
Definition patch_shape (st : status_dict) (p p' : kpatch) : Prop :=
  p' = p ∨
  ∃ d, p' !! "cyberdesk_create" = Some d ∧
    ((d !! "virtualMachineRef" = Some None
      ∧ is_Some (d !! "cloneOperationName"))
     ∨ (is_Some (d !! "virtualMachineRef")
        ∧ d !! "cloneOperationName" = Some None)
     ∨ (d !! "virtualMachineRef" = Some <$> st !! "virtualMachineRef"
        ∧ is_Some (st !! "virtualMachineRef")
        ∧ d !! "cloneOperationName" = None)).

(** The status dictionaries written on the paths that bind a VM or start a
    clone. *)
Definition bound_status (vm_ref start expiry phase : string) : patch_dict :=
  list_to_map [("virtualMachineRef", Some vm_ref);
               ("startTime", Some start);
               ("expiryTime", Some expiry);
               ("lastPhase", Some phase);
               ("cloneOperationName", None)].

Definition cloning_status (clone_op_name : string) : patch_dict :=
  list_to_map [("cloneOperationName", Some clone_op_name);
               ("lastPhase", Some "CloningInitiated");
               ("virtualMachineRef", None)].

Definition abandoned_status (st : status_dict) (phase : string) : patch_dict :=
  <["virtualMachineRef" := None]>
    (<["cloneOperationName" := None]>
       (<["lastPhase" := Some phase]> (spread st))).

(** A trace respects the order of status write and creation when every clone
    object it creates is the one whose name the handler read from the status,
    with the manifest of the desktop. *)
Definition create_allowed (namespace instance_id : string) (st : status_dict)
    (r : request) : Prop :=
  match r with
  | create_clone ns body =>
      ∃ c, nonempty (st !! "cloneOperationName") = Some c
           ∧ ns = namespace
           ∧ body = clone_manifest c namespace instance_id
  | _ => True
  end.

(** One hour, in microseconds. *)
Definition one_hour : Z := 3600 * 1000000.


(** * Further handlers and vocabulary *)

(** ** The readiness notifier *)

(** An entry of [status.conditions] of a VMI: its [type] and its [status]. *)
Record condition := {
  cond_type : option string;
  cond_status : option string
}.

(** [if x:] for an optional list: [None] and the empty list are false. *)
Definition nonempty_list {A} (x : option (list A)) : list A :=
  match x with
  | Some l => l
  | None => []
  end.

Section Notifier.

Variable GATEWAY_BASE_URL : option string.
Variable valid_url : string → bool.

(** The handler of a change of [status.conditions] of a VMI.  [old] and [new]
    are the two values of the field, [labels] is [meta.get("labels", {})].
    The notification itself has the shape of the one of the pool path, with
    a timeout of 10 seconds, but its [try] ends with [except Exception]:
    what leaves the block of the pool path is logged here. *)
Definition vmi_ready_watcher (old new : option (list condition))
    (labels : gmap string string) : M unit :=
  match nonempty_list new with
  | [] => ret tt
  | new =>
      if negb (opt_eqb (labels !! "app") "cyberdesk") then ret tt
      else
        match nonempty (labels !! "cyberdesk-instance") with
        | None => ret tt
        | Some instance_id =>
            let ready_condition :=
              List.find (λ c, opt_eqb (cond_type c) "Ready") new in
            match ready_condition with
            | None => ret tt
            | Some ready_condition =>
                let is_ready := opt_eqb (cond_status ready_condition) "True" in
                let was_ready :=
                  existsb (λ c, opt_eqb (cond_type c) "Ready"
                                && opt_eqb (cond_status c) "True")
                    (nonempty_list old) in
                if is_ready && negb was_ready then
                  say INFO;;;
                  try_except
                    (notify_gateway GATEWAY_BASE_URL valid_url instance_id 10)
                    (λ _, say ERROR)
                else ret tt
            end
        end
  end.

End Notifier.

(** ** Vocabulary *)

(** The candidates that the pool claimer tries to claim: named, not marked
    in use, running. *)
Definition eligible (v : vm) : bool :=
  truthy (vm_name v)
  && negb (opt_eqb (vm_labels v !! "pool.kubevirt.io/in-use") "true")
  && opt_eqb (vm_printableStatus v) "Running".

(** The claim patch of a candidate. *)
Definition claim_of (namespace : string) (v : vm) : request :=
  patch_vm namespace (default "" (vm_name v)) (claim_patch_body (vm_labels v)).

(** A result without its value. *)
Definition forget {A} (r : result A) : result unit :=
  match r with
  | Returned _ => Returned tt
  | Raised e => Raised e
  end.

(** The ways in which [cyberdesk_create] ends, with the patch it leaves:
    a retry or an overflow of the date without any write; the initiation of
    cloning; a binding, from the pool or from a clone; the re-patch of a
    bound desktop, whose dictionary is the status without its
    [cloneOperationName], with the two times added when one was missing;
    the abandon of a clone that failed or timed out; and, without any
    write, an exception of the gateway notification of the pool path: the
    [ValueError] of a URL without a type, or an exception of [urlopen] that
    the source does not name. *)
Inductive create_outcome (gateway : option string) (valid_url : string → bool)
    (isoformat : Z → string) (instance_id : string)
    (st : status_dict) (p : kpatch) : result unit → kpatch → Prop :=
  | outcome_retry delay :
      create_outcome gateway valid_url isoformat instance_id st p
        (Raised (TemporaryError delay)) p
  | outcome_overflow :
      create_outcome gateway valid_url isoformat instance_id st p (Raised OverflowError) p
  | outcome_initiated :
      create_outcome gateway valid_url isoformat instance_id st p
        (Raised (TemporaryError (Some 5)))
        (<["cyberdesk_create" :=
             cloning_status ("clone-for-" +:+ instance_id)]> p)
  | outcome_bound v now expiry phase p' :
      phase ∈ ["AssignedFromPool"; "Cloned"] →
      p' !! "cyberdesk_create"
      = Some (bound_status v (isoformat now) (isoformat expiry) phase) →
      create_outcome gateway valid_url isoformat instance_id st p (Returned tt) p'
  | outcome_repatched v d p' :
      st !! "virtualMachineRef" = Some v →
      opt_in (st !! "lastPhase") ["AssignedFromPool"; "Cloned"; "Running"]
      = true →
      p' !! "cyberdesk_create" = Some (delete "cloneOperationName" d) →
      (d = spread st
       ∧ contains st "startTime" && contains st "expiryTime" = true
       ∨ ∃ now expiry,
           d = <["expiryTime" := Some (isoformat expiry)]>
                 (<["startTime" := Some (isoformat now)]> (spread st))) →
      create_outcome gateway valid_url isoformat instance_id st p (Returned tt) p'
  | outcome_abandoned phase :
      phase ∈ ["CloneFailed"; "CloneTimeout"] →
      create_outcome gateway valid_url isoformat instance_id st p (Raised PermanentError)
        (<["cyberdesk_create" := abandoned_status st phase]> p)
  | outcome_url_without_type base :
      nonempty gateway = Some base →
      valid_url (base +:+ "/cyberdesk/" +:+ instance_id +:+ "/ready") = false →
      create_outcome gateway valid_url isoformat instance_id st p (Raised ValueError) p
  | outcome_urlopen_raised base :
      nonempty gateway = Some base →
      valid_url (base +:+ "/cyberdesk/" +:+ instance_id +:+ "/ready") = true →
      create_outcome gateway valid_url isoformat instance_id st p (Raised OtherException) p.

(** The calls that [cyberdesk_create] may issue: it reads and patches VMs,
    reads VMIs and clones, creates clones, reads the clock; it deletes a
    clone only when the retries are exhausted, and the clone of the status;
    it posts to the gateway only the readiness of the desktop, with a
    timeout of 5 seconds; it deletes neither a VM nor a Cyberdesk and does
    not talk to Supabase. *)
Definition create_call_ok (gateway : option string) (instance_id : string)
    (st : status_dict) (retry : Z) (r : request) : Prop :=
  match r with
  | delete_vm _ _ | delete_cyberdesk _ _
  | supabase_select_status _ | supabase_update_status _ _ => False
  | delete_clone _ c =>
      20 ≤ retry ∧ nonempty (st !! "cloneOperationName") = Some c
  | urlopen_post url timeout =>
      timeout = 5
      ∧ ∃ base, nonempty gateway = Some base
                ∧ url = base +:+ "/cyberdesk/" +:+ instance_id +:+ "/ready"
  | _ => True
  end.

(** The phases that the reconciler writes into [lastPhase]. *)
Definition written_phases : list string :=
  ["CloningInitiated"; "AssignedFromPool"; "Cloned"; "CloneFailed";
   "CloneTimeout"].

(** What holds of every status that the reconciler can produce: the phase is
    one of those it writes; a bound phase comes with the VM and the two
    times; a clone operation in the status comes with the phase
    [CloningInitiated], without a VM, under a name derived from a desktop;
    the two times are dates in ISO format. *)
Definition status_invariant (isoformat : Z → string) (st : status_dict)
  : Prop :=
  (∀ phase, st !! "lastPhase" = Some phase → phase ∈ written_phases)
  ∧ (∀ phase, st !! "lastPhase" = Some phase →
       phase ∈ ["AssignedFromPool"; "Cloned"] →
       is_Some (st !! "virtualMachineRef")
       ∧ is_Some (st !! "startTime")
       ∧ is_Some (st !! "expiryTime"))
  ∧ (∀ c, st !! "cloneOperationName" = Some c →
       st !! "lastPhase" = Some "CloningInitiated"
       ∧ st !! "virtualMachineRef" = None
       ∧ ∃ instance_id, c = "clone-for-" +:+ instance_id)
  ∧ (∀ k s, k ∈ ["startTime"; "expiryTime"] → st !! k = Some s →
       ∃ t, s = isoformat t).

(** A condition of type [Ready] with status [True]. *)
Definition ready_true (c : condition) : Prop :=
  cond_type c = Some "Ready" ∧ cond_status c = Some "True".

(** A call that does not set a row of Supabase to [running]. *)
Definition not_running (r : request) : Prop :=
  match r with
  | supabase_update_status _ value => value ≠ "running"
  | _ => True
  end.

(** Dates written as decimal numbers of microseconds, which parse back. *)
Definition decimal_isoformat (t : Z) : string :=
  NilEmpty.string_of_int (Z.to_int t).

Definition decimal_fromisoformat (s : string) : parsed :=
  if String.eqb s "" then NotIso
  else match NilEmpty.int_of_string s with
       | Some d => Aware (Z.of_int d)
       | None => NotIso
       end.

(** ** Further examples *)

(** A desktop bound to the VM [desk-2], with both times. *)
Definition bound_desk : status_dict :=
  list_to_map [("virtualMachineRef", "desk-2"); ("lastPhase", "Cloned");
               ("startTime", "0"); ("expiryTime", "600000000")].

(** A status that has both references: the desktop is bound to the VM
    [desk-2] and still names the clone operation. *)
Definition desk_with_both_references : status_dict :=
  list_to_map [("virtualMachineRef", "desk-2");
               ("cloneOperationName", "clone-for-desk-2");
               ("lastPhase", "Cloned");
               ("startTime", "0"); ("expiryTime", "600000000")].

(** A pool whose warm VM has no VMI yet. *)
Definition cluster_with_cold_pool : Cluster.cluster :=
  {| Cluster.vms := {[ "vm-a" := Cluster.warm_vm ]};
     Cluster.vmis := ∅;
     Cluster.clones := ∅;
     Cluster.cyberdesks := {[ "desk-1" ]};
     Cluster.clock := 1000000 |}.

(** The labels of the VMI of the desktop [desk-1]. *)
Definition desk_1_labels : gmap string string :=
  list_to_map [("app", "cyberdesk"); ("cyberdesk-instance", "desk-1")].


(** * Properties *)

(** ** Runs *)

Ltac answer o :=
  match goal with
  | |- context [o ?r ?w] =>
      let x := fresh "x" in
      let w' := fresh "w" in
      let E := fresh "E" in
      destruct (o r w) as [x w'] eqn:E; cbn in x
  end.

Lemma run_prog_bind {W A B} (o : oracle W) (m : prog A) (f : A → prog B) w :
  run o (prog_bind m f) w =
    let '(a, w1, t1) := run o m w in
    let '(b, w2, t2) := run o (f a) w1 in
    (b, w2, (t1 ++ t2)%list).
Proof.
  revert w. induction m as [a|lvl k IH|r k IH]; intros w; cbn.
  - by destruct (run o (f a) w) as [[b w2] t2].
  - rewrite IH. destruct (run o k w) as [[a w1] t1].
    by destruct (run o (f a) w1) as [[b w2] t2].
  - destruct (o r w) as [x w0]. rewrite IH.
    destruct (run o (k x) w0) as [[a w1] t1].
    by destruct (run o (f a) w1) as [[b w2] t2].
Qed.

Lemma run_bind {W A B} (o : oracle W) (m : M A) (f : A → M B) p w :
  run o (bind m f p) w =
    let '((r, p1), w1, t1) := run o (m p) w in
    match r with
    | Returned a =>
        let '(b, w2, t2) := run o (f a p1) w1 in (b, w2, (t1 ++ t2)%list)
    | Raised e => ((Raised e, p1), w1, t1)
    end.
Proof.
  unfold bind. rewrite run_prog_bind.
  destruct (run o (m p) w) as [[[[a|e] p1] w1] t1]; [done|].
  cbn. by rewrite app_nil_r.
Qed.

Lemma calls_app t1 t2 : calls (t1 ++ t2)%list = (calls t1 ++ calls t2)%list.
Proof. induction t1 as [|[l|r] t1 IH]; cbn; [done|done|by rewrite IH]. Qed.

Lemma nonempty_Some x s : nonempty x = Some s → x = Some s ∧ s ≠ "".
Proof.
  unfold nonempty. destruct x as [s'|]; [|done].
  destruct (String.eqb_spec s' ""); [done|]. by intros [= <-].
Qed.

Lemma nonempty_fixed x s : nonempty x = Some s → nonempty (Some s) = Some s.
Proof.
  intros [_ Hs]%nonempty_Some. cbn. by destruct (String.eqb_spec s "").
Qed.

(** ** The phase synchronizer *)

Lemma target_status_external phase :
  SupabaseInstanceStatus_value (target_status phase)
  = spec_external_status phase.
Proof.
  unfold target_status, KubeVirtVMIPhase_of_value, spec_external_status.
  repeat match goal with
  | |- context [String.eqb phase ?s] =>
      destruct (String.eqb_spec phase s) as [->|?]; [reflexivity|]
  end.
  rewrite bool_decide_eq_false_2
    by (rewrite !elem_of_cons, elem_of_nil; intuition congruence).
  rewrite bool_decide_eq_false_2 by done. reflexivity.
Qed.

Example Running_is_pending : spec_external_status "Running" = "pending".
Proof. reflexivity. Qed.

Example lowercase_is_error :
  SupabaseInstanceStatus_value (target_status "running") = "error".
Proof. reflexivity. Qed.

(** C4.  For every string given as the phase of a VMI, the target computed
    by [update_instance_status] is the entry of the table of the
    specification: [pending] for [Pending], [Scheduling], [Scheduled] and
    [Running], [terminated] for [Succeeded], [error] for [Failed], [Unknown]
    and every unrecognized string.  [update_instance_status] writes exactly
    that value, and whatever the synchronizer [vmi_phase_change] writes for a
    VMI is that value, on the row of the instance named by its label. *)
Theorem phase_mapping_table (phase : string) :
  SupabaseInstanceStatus_value (target_status phase)
    = spec_external_status phase
  ∧ (∀ W (o : oracle W) id p w,
       updates (trace (exec o (update_instance_status id phase) p w))
       = [(id, spec_external_status phase)])
  ∧ (∀ W (o : oracle W) old labels p w,
       updates (trace (exec o (vmi_phase_change old (Some phase) labels) p w))
       ⊆ match nonempty (labels !! "cyberdesk-instance") with
         | Some id => [(id, spec_external_status phase)]
         | None => []
         end).
Proof.
  split; [apply target_status_external|]. split.
  - intros W o id p w. rewrite <- target_status_external.
    unfold target_status, update_instance_status, exec.
    destruct (KubeVirtVMIPhase_of_value phase); cbn; answer o;
      destruct x; reflexivity.
  - intros W o old labels p w. unfold vmi_phase_change.
    destruct (negb _); [cbn; set_solver|].
    destruct (nonempty _) as [id|]; [|by destruct (_ || _)].
    rewrite <- target_status_external.
    unfold target_status, exec, update_instance_status.
    destruct (KubeVirtVMIPhase_of_value phase); cbn; answer o; destruct x; cbn;
      repeat match goal with
             | |- context [if ?b then _ else _] => destruct b; cbn
             end;
      try answer o; try destruct x; cbn; set_solver.
Qed.

(** ** Deletion and expiry *)

Section Teardown.

Context {W : Type} (o : oracle W).
Context (namespace : string) (fromisoformat : string → parsed).

(** C7.  On deletion, with "set" read as the source tests it (present and
    not the empty string): if [virtualMachineRef] is set, the only call is the
    deletion of the VM of that name, and the handler returns when the call
    succeeds or answers 404 or 410 and raises a [TemporaryError] on every
    other API error; otherwise, if [cloneOperationName] is set, the only call
    is the deletion of the clone object and the handler returns whatever the
    answer, with a debug line for a 404 and a warning for any other error;
    otherwise the handler returns without any call. *)
Theorem cyberdesk_delete_cleanup name (st : status_dict) p w :
  let out := exec o (cyberdesk_delete namespace name st) p w in
  match nonempty (st !! "virtualMachineRef"),
        nonempty (st !! "cloneOperationName") with
  | Some vm_name, _ =>
      calls (trace out) = [delete_vm namespace vm_name]
      ∧ res out =
          match (o (delete_vm namespace vm_name) w).1 with
          | inr _ => Returned tt
          | inl e =>
              if bool_decide (status e = 404 ∨ status e = 410)
              then Returned tt
              else Raised (TemporaryError (Some 15))
          end
  | None, Some clone_op_name =>
      calls (trace out) = [delete_clone namespace clone_op_name]
      ∧ res out = Returned tt
      ∧ logged (trace out) =
          [INFO; WARNING; INFO;
           match (o (delete_clone namespace clone_op_name) w).1 with
           | inr _ => INFO
           | inl e => if bool_decide (status e = 404) then DEBUG else WARNING
           end]
  | None, None =>
      calls (trace out) = [] ∧ res out = Returned tt
  end.
Proof.
  unfold cyberdesk_delete, exec.
  destruct (nonempty (st !! "virtualMachineRef")) as [v|].
  - cbn. answer o. destruct x as [e|[]]; cbn; [|done].
    destruct (Z.eqb_spec (status e) 404) as [E4|E4]; cbn.
    { by rewrite bool_decide_eq_true_2 by auto. }
    destruct (Z.eqb_spec (status e) 410) as [E5|E5]; cbn.
    { by rewrite bool_decide_eq_true_2 by auto. }
    by rewrite bool_decide_eq_false_2 by intuition.
  - destruct (nonempty (st !! "cloneOperationName")) as [c|]; cbn; [|done].
    answer o. destruct x as [e|[]]; cbn; [|done].
    destruct (Z.eqb_spec (status e) 404) as [E4|E4]; cbn.
    + by rewrite bool_decide_eq_true_2 by auto.
    + by rewrite bool_decide_eq_false_2 by auto.
Qed.

(** C9.  The timer is registered with an interval of 60 seconds.  Without a
    (non-empty) [expiryTime] in the status it does nothing.  When the string
    is not an ISO date it logs one error and returns.  When it is an aware
    date, the timer reads the clock; if the time is at or past the expiry its
    one API call deletes the Cyberdesk resource (never a VM), returning when
    the call succeeds and raising a [TemporaryError] when it answers an API
    error; before the expiry it returns without any API call.  A date without
    a time zone cannot be compared with the clock, and the [TypeError] of the
    comparison leaves the handler. *)
Theorem cyberdesk_timeout_check_expiry name (st : status_dict) p w :
  let out :=
    exec o (cyberdesk_timeout_check fromisoformat name namespace st) p w in
  timeout_check_interval = 60
  ∧ match nonempty (st !! "expiryTime") with
    | None => trace out = [Logged DEBUG] ∧ res out = Returned tt
    | Some expiry_str =>
        match fromisoformat expiry_str with
        | NotIso => trace out = [Logged ERROR] ∧ res out = Returned tt
        | Aware expiry =>
            let '(now, w1) := o datetime_now w in
            if bool_decide (expiry ≤ now) then
              calls (trace out)
              = [datetime_now; delete_cyberdesk namespace name]
              ∧ res out =
                  match (o (delete_cyberdesk namespace name) w1).1 with
                  | inr _ => Returned tt
                  | inl _ => Raised (TemporaryError (Some 30))
                  end
            else
              calls (trace out) = [datetime_now] ∧ res out = Returned tt
        | Naive _ =>
            calls (trace out) = [datetime_now] ∧ res out = Raised TypeError
        end
    end.
Proof.
  split; [reflexivity|].
  unfold cyberdesk_timeout_check, exec.
  destruct (nonempty (st !! "expiryTime")) as [s|]; [|done].
  destruct (fromisoformat s) as [|t|t]; cbn; [done| |].
  - answer o. done.
  - destruct (o datetime_now w) as [now w1] eqn:E. cbn in now. cbn.
    destruct (Z.geb_spec now t) as [G|G]; cbn.
    + rewrite bool_decide_eq_true_2 by lia. answer o.
      by destruct x as [e|[]].
    + by rewrite bool_decide_eq_false_2 by lia.
Qed.

End Teardown.

(** ** The pool claimer *)

Section Pool.

Context {W : Type} (o : oracle W) (namespace : string).

(** The loop never raises and does not touch the patch; it only issues claim
    patches; the name it returns is not empty. *)
Lemma claim_first_run items p w :
  ∃ x w' tr,
    run o (claim_first namespace items p) w = ((Returned x, p), w', tr)
    ∧ nonempty x = x
    ∧ Forall (λ r, pool_call r = true) (calls tr).
Proof.
  revert w. induction items as [|vm items IH]; intros w; cbn.
  { by eexists None, w, _. }
  destruct (nonempty (vm_name vm)) as [n|] eqn:Hn; cbn.
  2:{ destruct (IH w) as (x & w' & tr & -> & ? & ?). by eexists x, w', _. }
  destruct (opt_eqb _ "true"); cbn.
  { destruct (IH w) as (x & w' & tr & -> & ? & ?). by eexists x, w', _. }
  destruct (negb _); cbn.
  { destruct (IH w) as (x & w' & tr & -> & ? & ?). by eexists x, w', _. }
  answer o. destruct x as [e|[]]; cbn.
  - destruct (IH w0) as (x & w' & tr & -> & ? & ?). eexists x, w', _.
    split; [done|]. split; [done|]. cbn. by constructor.
  - eexists (Some n), w0, _. split; [done|]. split.
    + by eapply nonempty_fixed.
    + cbn. by repeat constructor.
Qed.

Lemma get_free_vm_from_pool_run p w :
  ∃ r w' tr,
    run o (get_free_vm_from_pool namespace p) w = ((r, p), w', tr)
    ∧ (r = Raised (TemporaryError (Some 15))
       ∨ ∃ x, r = Returned x ∧ nonempty x = x)
    ∧ Forall (λ r, pool_call r = true) (calls tr).
Proof.
  unfold get_free_vm_from_pool. cbn. answer o. destruct x as [e|vms]; cbn.
  - eexists _, _, _. split; [done|]. split; [by left|].
    cbn. by repeat constructor.
  - destruct (claim_first_run vms p w0) as (x & w' & tr & -> & ? & ?).
    eexists _, _, _. split; [done|]. split; [right; by eexists|].
    cbn. by constructor.
Qed.

(** C8.  When the list call answers an API error, the claimer raises a
    [TemporaryError] after that one call.  When the claim patch of a
    candidate (named, not in use, running) answers an API error, whatever it
    is, the claimer logs it and goes on with the candidates that follow: from
    there on the run is the run of the loop over the rest of the list. *)
Theorem pool_claim_continues :
  (∀ p w e w',
     o (list_vm namespace "pool.kubevirt.io/warm=ready") w = (inl e, w') →
     let out := exec o (get_free_vm_from_pool namespace) p w in
     res out = Raised (TemporaryError (Some 15))
     ∧ calls (trace out) = [list_vm namespace "pool.kubevirt.io/warm=ready"])
  ∧ (∀ vm items name p w e w',
       nonempty (vm_name vm) = Some name →
       opt_eqb (vm_labels vm !! "pool.kubevirt.io/in-use") "true" = false →
       opt_eqb (vm_printableStatus vm) "Running" = true →
       o (patch_vm namespace name (claim_patch_body (vm_labels vm))) w
         = (inl e, w') →
       let out := exec o (claim_first namespace (vm :: items)) p w in
       let rest := exec o (claim_first namespace items) p w' in
       res out = res rest
       ∧ world out = world rest
       ∧ trace out =
           Logged INFO
           :: Called (patch_vm namespace name (claim_patch_body (vm_labels vm)))
           :: Logged ERROR :: trace rest).
Proof.
  split.
  - intros p w e w' Hlist. unfold get_free_vm_from_pool, exec. cbn.
    by rewrite Hlist.
  - intros vm items name p w e w' Hname Huse Hrun Hpatch.
    unfold exec. cbn. rewrite Hname, Huse, Hrun. cbn. rewrite Hpatch. cbn.
    by destruct (run o (claim_first namespace items p) w') as [[[r p'] w''] tr].
Qed.

(** The candidate that wins is the first one whose claim patch succeeds. *)
Lemma claim_first_success vm items name p w w' :
  nonempty (vm_name vm) = Some name →
  opt_eqb (vm_labels vm !! "pool.kubevirt.io/in-use") "true" = false →
  opt_eqb (vm_printableStatus vm) "Running" = true →
  o (patch_vm namespace name (claim_patch_body (vm_labels vm))) w
    = (inr tt, w') →
  res (exec o (claim_first namespace (vm :: items)) p w)
  = Returned (Some name).
Proof.
  intros Hname Huse Hrun Hpatch. unfold exec. cbn.
  rewrite Hname, Huse, Hrun. cbn. by rewrite Hpatch.
Qed.

End Pool.

(** ** The reconciler *)

Section Reconciler.
Context {W : Type} (o : oracle W).
Context (namespace : string) (gateway : option string)
  (valid_url : string → bool) (isoformat : Z → string).

Abbreviation create := (cyberdesk_create namespace gateway valid_url isoformat).

Ltac crunch :=
  repeat (cbn;
    match goal with
    | |- context [o ?r ?w] =>
        let x := fresh "x" in
        let w' := fresh "w" in
        destruct (o r w) as [x w'] eqn:?; cbn in x
    | |- context [match ?x with inl _ => _ | inr _ => _ end] =>
        is_var x; destruct x
    | |- context [match ?x with Some _ => _ | None => _ end] =>
        is_var x; destruct x
    | |- context [match ?x with
                  | Responded _ => _ | NamedError => _ | OtherError => _
                  end] =>
        is_var x; destruct x
    | |- context [if ?b then _ else _] => destruct b eqn:?
    | |- context [match nonempty ?x with _ => _ end] =>
        destruct (nonempty x) eqn:?
    end).

Ltac finish_run :=
  eexists _, _, _, _; (split; [reflexivity|]).

Lemma pool_call_allowed name st r :
  pool_call r = true → create_allowed namespace name st r.
Proof. by destruct r. Qed.

Lemma shape_abandoned st phase p :
  patch_shape st p (<["cyberdesk_create" := abandoned_status st phase]> p).
Proof.
  right. eexists. split; [by rewrite lookup_insert_eq|]. left.
  unfold abandoned_status. rewrite lookup_insert_eq, lookup_insert_ne by done.
  by rewrite lookup_insert_eq.
Qed.

Lemma shape_bound st v s e ph p :
  patch_shape st p
    (delete "expiryTime" (delete "startTime" (delete "virtualMachineRef"
       (<["cyberdesk_create" := bound_status v s e ph]> p)))).
Proof.
  right. eexists. split.
  - by rewrite !lookup_delete_ne, lookup_insert_eq by done.
  - right; left. done.
Qed.

Lemma shape_cloning st c p :
  patch_shape st p (<["cyberdesk_create" := cloning_status c]> p).
Proof.
  right. eexists. split; [by rewrite lookup_insert_eq|]. by left.
Qed.

Lemma shape_repatch st v (d : patch_dict) p :
  st !! "virtualMachineRef" = Some v →
  d !! "virtualMachineRef" = Some (Some v) →
  patch_shape st p
    (alter (delete "cloneOperationName") "cyberdesk_create"
       (delete "expiryTime" (delete "startTime" (delete "virtualMachineRef"
          (<["cyberdesk_create" := d]> p))))).
Proof.
  intros Hv Hd. right. eexists. split.
  - by rewrite lookup_alter_eq, !lookup_delete_ne, lookup_insert_eq by done.
  - right; right. by rewrite lookup_delete_eq, lookup_delete_ne, Hd, Hv by done.
Qed.

Lemma already_provisioned_run name v timeout st p w :
  st !! "virtualMachineRef" = Some v →
  ∃ r p' w' tr,
    run o (already_provisioned isoformat v namespace timeout st p) w
    = ((r, p'), w', tr)
    ∧ r ≠ Returned false
    ∧ patch_shape st p p'
    ∧ Forall (create_allowed namespace name st) (calls tr).
Proof.
  intros Hv.
  unfold already_provisioned, _ensure_vm_patched_and_running, plus_milliseconds.
  crunch; finish_run; (split; [done|]).
  all: split; [|by repeat constructor].
  all: try by left.
  all: apply (shape_repatch st v); [done|].
  all: rewrite ?lookup_insert_ne by done; unfold spread;
       by rewrite lookup_fmap, Hv.
Qed.

Lemma check_clone_status_run c name timeout retry st p w :
  nonempty (st !! "cloneOperationName") = Some c →
  ∃ r p' w' tr,
    run o (check_clone_status isoformat (st !! "cloneOperationName") namespace
             name timeout retry 20 5 st p) w
    = ((r, p'), w', tr)
    ∧ patch_shape st p p'
    ∧ Forall (create_allowed namespace name st) (calls tr).
Proof.
  intros Hc. unfold check_clone_status. rewrite Hc.
  unfold _ensure_vm_patched_and_running, plus_milliseconds.
  crunch; finish_run.
  all: split; [|repeat constructor; cbn; eauto].
  all: try by left.
  all: first [ apply shape_abandoned | apply (shape_bound st) ].
Qed.

Lemma bind_pool_vm_run v name timeout st p w :
  ∃ r p' w' tr,
    run o (bind_pool_vm gateway valid_url isoformat v namespace name timeout p) w
    = ((r, p'), w', tr)
    ∧ patch_shape st p p'
    ∧ Forall (create_allowed namespace name st) (calls tr).
Proof.
  unfold bind_pool_vm, notify_gateway, plus_milliseconds.
  crunch; finish_run.
  all: split; [|by repeat constructor].
  all: try by left.
  all: apply (shape_bound st).
Qed.

Lemma cyberdesk_create_run timeoutMs name retry st p w :
  ∃ r p' w' tr,
    run o (create timeoutMs name st retry p) w = ((r, p'), w', tr)
    ∧ patch_shape st p p'
    ∧ Forall (create_allowed namespace name st) (calls tr).
Proof.
  unfold cyberdesk_create.
  cbn -[already_provisioned check_clone_status bind_pool_vm
        get_free_vm_from_pool initiate_cloning].
  rewrite run_bind.
  assert (Hrest : ∀ w,
    ∃ r p' w' tr,
      run o (match nonempty (st !! "cloneOperationName") with
             | Some _ =>
                 (say INFO;;;
                  check_clone_status isoformat (st !! "cloneOperationName")
                    namespace name (default 3600000 timeoutMs) retry 20 5 st)%handler
             | None =>
                 (say INFO;;;
                  let! assigned_vm_name := get_free_vm_from_pool namespace in
                  match nonempty assigned_vm_name with
                  | Some assigned_vm_name =>
                      bind_pool_vm gateway valid_url isoformat assigned_vm_name namespace
                        name (default 3600000 timeoutMs)
                  | None => initiate_cloning name 5
                  end)%handler
             end p) w = ((r, p'), w', tr)
      ∧ patch_shape st p p'
      ∧ Forall (create_allowed namespace name st) (calls tr)).
  { intros w0. destruct (nonempty (st !! "cloneOperationName")) as [c|] eqn:Hc.
    - cbn -[check_clone_status].
      destruct (check_clone_status_run c name (default 3600000 timeoutMs) retry
                  st p w0 Hc) as (r & p' & w' & tr & -> & ? & ?).
      by finish_run.
    - cbn -[get_free_vm_from_pool bind_pool_vm initiate_cloning].
      rewrite run_bind.
      destruct (get_free_vm_from_pool_run o namespace p w0)
        as (r & w1 & t1 & -> & Hr & Hcalls).
      eapply Forall_impl in Hcalls; [|apply (pool_call_allowed name st)].
      destruct Hr as [->|(x & -> & Hx)].
      { finish_run. split; [by left|]. done. }
      destruct (nonempty x) as [v|].
      + destruct (bind_pool_vm_run v name (default 3600000 timeoutMs) st p w1)
          as (r & p' & w' & t2 & -> & ? & ?).
        finish_run. split; [done|]. cbn. rewrite calls_app.
        by apply Forall_app.
      + cbn. finish_run. split; [apply shape_cloning|].
        cbn. rewrite calls_app. cbn. by rewrite app_nil_r. }
  destruct (nonempty (st !! "virtualMachineRef")) as [v|] eqn:Hv.
  2:{ cbn. destruct (Hrest w) as (r & p' & w' & tr & -> & ? & ?). by finish_run. }
  destruct (opt_in _ _).
  2:{ cbn. destruct (Hrest w) as (r & p' & w' & tr & -> & ? & ?). by finish_run. }
  apply nonempty_Some in Hv as [Hv _].
  destruct (already_provisioned_run name v (default 3600000 timeoutMs) st p w Hv)
    as (r & p' & w' & tr & -> & Hr & ? & ?).
  destruct r as [[]|e]; [| done |]; cbn; finish_run; rewrite ?app_nil_r; done.
Qed.


(** *** The paths of [cyberdesk_create] *)

Lemma not_bound_steady timeout st :
  bound_steady st = false →
  match nonempty (st !! "virtualMachineRef") with
  | Some vm_ref =>
      if opt_in (st !! "lastPhase") ["AssignedFromPool"; "Cloned"; "Running"]
      then already_provisioned isoformat vm_ref namespace timeout st
      else ret false
  | None => ret false
  end = ret false.
Proof.
  unfold bound_steady, truthy.
  destruct (nonempty (st !! "virtualMachineRef")); [|done].
  cbn. by intros ->.
Qed.

Lemma apply_status_patch_lookup st d k :
  apply_status_patch st d !! k
  = match d !! k with
    | Some (Some x) => Some x
    | Some None => None
    | None => st !! k
    end.
Proof.
  unfold apply_status_patch. rewrite lookup_merge.
  by destruct (st !! k), (d !! k) as [[?|]|].
Qed.

Lemma clone_success_run timeoutMs name st retry p w c cl w1 w2 now w3 :
  bound_steady st = false →
  nonempty (st !! "cloneOperationName") = Some c →
  o (get_clone namespace c) w = (inr cl, w1) →
  clone_phase cl = Some "Succeeded" →
  o (patch_vm namespace name (finalize_patch_body name)) w1 = (inr tt, w2) →
  o datetime_now w2 = (now, w3) →
  representable (now + 1000 * default 3600000 timeoutMs) = true →
  let out := exec o (create timeoutMs name st retry) p w in
  res out = Returned tt
  ∧ calls (trace out)
    = [get_clone namespace c;
       patch_vm namespace name (finalize_patch_body name);
       datetime_now]
  ∧ patch out !! "cyberdesk_create"
    = Some (bound_status name (isoformat now)
              (isoformat (now + 1000 * default 3600000 timeoutMs)) "Cloned").
Proof.
  intros Hs Hc Hget Hph Hpatch Hnow Hrep.
  unfold cyberdesk_create, exec. rewrite not_bound_steady by done.
  rewrite Hc. unfold check_clone_status. rewrite Hc.
  cbn. rewrite Hget. cbn. rewrite Hph. cbn. rewrite Hpatch. cbn.
  rewrite Hnow. cbn. unfold plus_milliseconds. rewrite Hrep. cbn.
  split; [done|]. split; [done|].
  by rewrite !lookup_delete_ne, lookup_insert_eq by done.
Qed.

Lemma clone_in_progress_run timeoutMs name st retry p w c cl w1 :
  bound_steady st = false →
  nonempty (st !! "cloneOperationName") = Some c →
  o (get_clone namespace c) w = (inr cl, w1) →
  in_progress (clone_phase cl) = true →
  let out := exec o (create timeoutMs name st retry) p w in
  if bool_decide (20 ≤ retry) then
    res out = Raised PermanentError
    ∧ calls (trace out) = [get_clone namespace c; delete_clone namespace c]
    ∧ patch out = <["cyberdesk_create" := abandoned_status st "CloneTimeout"]> p
  else
    res out = Raised (TemporaryError (Some 5))
    ∧ calls (trace out) = [get_clone namespace c]
    ∧ patch out = p.
Proof.
  intros Hs Hc Hget Hph.
  unfold in_progress in Hph.
  apply andb_true_iff in Hph as [[H1 H2]%andb_true_iff H3].
  apply negb_true_iff in H1, H2, H3.
  unfold cyberdesk_create, exec. rewrite not_bound_steady by done.
  rewrite Hc. unfold check_clone_status. rewrite Hc.
  cbn. rewrite Hget. cbn. rewrite H1, H2, H3. cbn.
  destruct (Z.geb_spec retry 20) as [G|G]; cbn.
  - rewrite bool_decide_eq_true_2 by lia. answer o.
    destruct x as [e|[]]; cbn; [|done]. by destruct (negb _).
  - by rewrite bool_decide_eq_false_2 by lia.
Qed.

Lemma pool_exec p w :
  ∃ r w' tr,
    run o (get_free_vm_from_pool namespace p) w = ((r, p), w', tr)
    ∧ exec o (get_free_vm_from_pool namespace) p w
      = {| res := r; patch := p; world := w'; trace := tr |}
    ∧ Forall (λ r, pool_call r = true) (calls tr).
Proof.
  destruct (get_free_vm_from_pool_run o namespace p w)
    as (r & w' & tr & Hrun & _ & Hcalls).
  exists r, w', tr. split; [done|]. split; [|done].
  unfold exec. by rewrite Hrun.
Qed.

Lemma pool_miss_run timeoutMs name st retry p w :
  nonempty (st !! "virtualMachineRef") = None →
  nonempty (st !! "cloneOperationName") = None →
  let pool := exec o (get_free_vm_from_pool namespace) p w in
  res pool = Returned None →
  let out := exec o (create timeoutMs name st retry) p w in
  res out = Raised (TemporaryError (Some 5))
  ∧ patch out
    = <["cyberdesk_create" := cloning_status ("clone-for-" +:+ name)]> p
  ∧ calls (trace out) = calls (trace pool)
  ∧ Forall (λ r, creates_any_clone r = false) (calls (trace out)).
Proof.
  intros Hv Hc pool Hpool. subst pool.
  destruct (pool_exec p w) as (r & w' & tr & Hrun & Hexec & Hcalls).
  rewrite Hexec in Hpool |- *. cbn in Hpool. subst r.
  unfold cyberdesk_create, exec. rewrite Hv, Hc.
  cbn -[get_free_vm_from_pool]. rewrite run_bind, Hrun. cbn.
  rewrite calls_app. cbn. rewrite app_nil_r.
  split; [done|]. split; [done|]. split; [done|].
  eapply Forall_impl; [exact Hcalls|]. by intros [].
Qed.

Lemma pool_success_run timeoutMs name st retry p w v cur w2 w3 i w4 now w6 :
  nonempty (st !! "virtualMachineRef") = None →
  nonempty (st !! "cloneOperationName") = None →
  let pool := exec o (get_free_vm_from_pool namespace) p w in
  res pool = Returned (Some v) →
  o (get_vm namespace v) (world pool) = (inr cur, w2) →
  let labels : gmap string string :=
    list_to_map [("app", "cyberdesk"); ("cyberdesk-instance", name);
                 ("managed-by", MANAGED_BY)] in
  let template_labels : gmap string string :=
    list_to_map [("app", "cyberdesk"); ("cyberdesk-instance", name);
                 ("managed-by", MANAGED_BY); ("kubevirt.io/domain", name)] in
  let body :=
    {| vp_ownerReferences_null := false;
       vp_labels := Some (labels ∪ vm_labels cur);
       vp_runStrategy := None;
       vp_template_labels := Some (template_labels ∪ vm_template_labels cur);
       vp_hostname := None |} in
  o (patch_vm namespace v body) w2 = (inr tt, w3) →
  o (get_vmi namespace v) w3 = (inr i, w4) →
  truthy (hd None (vmi_interfaces i)) = true →
  vmi_phase i = Some "Running" →
  let notified := exec o (notify_gateway gateway valid_url name 5) p w4 in
  res notified = Returned tt →
  o datetime_now (world notified) = (now, w6) →
  representable (now + 1000 * default 3600000 timeoutMs) = true →
  let out := exec o (create timeoutMs name st retry) p w in
  res out = Returned tt
  ∧ patch out !! "cyberdesk_create"
    = Some (bound_status v (isoformat now)
              (isoformat (now + 1000 * default 3600000 timeoutMs))
              "AssignedFromPool").
Proof.
  intros Hv Hc pool Hpool Hget labels template_labels body Hpatch Hvmi Hip
    Hph notified Hnotified Hnow Hrep.
  subst pool notified.
  destruct (pool_exec p w) as (r & w' & tr & Hrun & Hexec & Hcalls).
  rewrite Hexec in Hpool, Hget. cbn in Hpool, Hget. subst r.
  assert (Hne : nonempty (Some v) = Some v).
  { destruct (get_free_vm_from_pool_run o namespace p w)
      as (r' & w'' & tr' & Hrun' & [?|(x & ? & Hx)] & _);
      rewrite Hrun in Hrun'; by simplify_eq. }
  unfold cyberdesk_create, exec. rewrite Hv, Hc.
  cbn -[get_free_vm_from_pool nonempty]. rewrite run_bind, Hrun. rewrite Hne.
  unfold bind_pool_vm. cbn -[notify_gateway]. rewrite Hget.
  cbn -[notify_gateway].
  subst body labels template_labels. cbn in Hpatch. rewrite Hpatch.
  cbn -[notify_gateway]. rewrite Hvmi. cbn -[notify_gateway].
  destruct (vmi_interfaces i) as [|ip ips]; [done|]. cbn in Hip.
  rewrite Hip, Hph. cbn -[notify_gateway].
  unfold exec in Hnotified, Hnow.
  rewrite !run_prog_bind.
  destruct (run o (notify_gateway gateway valid_url name 5 p) w4)
    as [[[r5 p5] w5] t5] eqn:Hn.
  cbn in Hnotified. subst r5.
  assert (p5 = p) as ->.
  { revert Hn. unfold notify_gateway. clear.
    destruct (nonempty gateway); cbn; [|by intros [= <- _ _]].
    destruct (valid_url _); cbn; [|done].
    destruct (o _ w4) as [[x| |] w']; cbn; by intros [= <- _ _]. }
  cbn in Hnow. cbn. rewrite Hnow. cbn. unfold plus_milliseconds. rewrite Hrep. cbn.
  split; [done|].
  by rewrite !lookup_delete_ne, lookup_insert_eq by done.
Qed.

Lemma repopulate_run timeoutMs name st retry p w v w1 now w2 :
  nonempty (st !! "virtualMachineRef") = Some v →
  opt_in (st !! "lastPhase") ["AssignedFromPool"; "Cloned"; "Running"] = true →
  contains st "startTime" && contains st "expiryTime" = false →
  o (patch_vm namespace v (finalize_patch_body v)) w = (inr tt, w1) →
  o datetime_now w1 = (now, w2) →
  representable (now + 1000 * default 3600000 timeoutMs) = true →
  let out := exec o (create timeoutMs name st retry) p w in
  res out = Returned tt
  ∧ calls (trace out)
    = [patch_vm namespace v (finalize_patch_body v); datetime_now]
  ∧ ∃ d, patch out !! "cyberdesk_create" = Some d
         ∧ d !! "virtualMachineRef" = Some (Some v)
         ∧ d !! "startTime" = Some (Some (isoformat now))
         ∧ d !! "expiryTime"
           = Some (Some (isoformat (now + 1000 * default 3600000 timeoutMs))).
Proof.
  intros Hv Hph Htimes Hpatch Hnow Hrep.
  unfold cyberdesk_create, exec. rewrite Hv, Hph.
  unfold already_provisioned, _ensure_vm_patched_and_running.
  cbn. rewrite Hpatch. cbn.
  replace (negb (contains st "startTime") || negb (contains st "expiryTime"))
    with true by (by destruct (contains st "startTime"), (contains st "expiryTime")).
  cbn. rewrite Hnow. cbn. unfold plus_milliseconds. rewrite Hrep. cbn.
  split; [done|]. split; [done|]. eexists. split.
  { by rewrite lookup_alter_eq, !lookup_delete_ne, lookup_insert_eq by done. }
  apply nonempty_Some in Hv as [Hv _].
  rewrite !lookup_delete_ne by done.
  rewrite lookup_insert_ne, lookup_insert_ne, lookup_insert_ne by done.
  rewrite lookup_insert_eq, lookup_insert_eq.
  unfold spread. by rewrite lookup_fmap, Hv.
Qed.

(** *** Post-bind finalization *)

(** C1, as the code has it.  The finalization of the VM named [v] issues one
    call, the patch of [v] with the body built from [v].  Applied as a merge patch
    to any VM, that body sets the top-level label [managed-by] and leaves
    every other top-level label as it was (it adds neither [app] nor
    [cyberdesk-instance]); it sets the template labels [app],
    [cyberdesk-instance] = [v], [managed-by] and [kubevirt.io/domain] = [v]
    and leaves every other template label as it was; it sets the hostname to
    [v] and the run strategy to [Always].  When the clone has succeeded, and
    when the desktop is bound to the VM of its own name, the name patched is
    the name of the desktop. *)
Theorem finalization_patch_effect :
  (∀ v p w,
     calls (trace (exec o (_ensure_vm_patched_and_running v namespace) p w))
     = [patch_vm namespace v (finalize_patch_body v)])
  ∧ (∀ old v,
       let new := apply_vm_patch old (finalize_patch_body v) in
       vm_labels new !! "managed-by" = Some MANAGED_BY
       ∧ (∀ k, k ≠ "managed-by" → vm_labels new !! k = vm_labels old !! k)
       ∧ vm_template_labels new !! "app" = Some "cyberdesk"
       ∧ vm_template_labels new !! "cyberdesk-instance" = Some v
       ∧ vm_template_labels new !! "managed-by" = Some MANAGED_BY
       ∧ vm_template_labels new !! "kubevirt.io/domain" = Some v
       ∧ (∀ k, k ∉ ["app"; "cyberdesk-instance"; "managed-by";
                     "kubevirt.io/domain"] →
               vm_template_labels new !! k = vm_template_labels old !! k)
       ∧ vm_hostname new = Some v
       ∧ vm_runStrategy new = Some "Always"
       ∧ vm_ownerReferences new = vm_ownerReferences old)
  ∧ (∀ timeoutMs name st retry p w c cl w1,
       bound_steady st = false →
       nonempty (st !! "cloneOperationName") = Some c →
       o (get_clone namespace c) w = (inr cl, w1) →
       clone_phase cl = Some "Succeeded" →
       calls (trace (exec o (create timeoutMs name st retry) p w)) !! 1%nat
       = Some (patch_vm namespace name (finalize_patch_body name)))
  ∧ (∀ timeoutMs name st retry p w,
       nonempty (st !! "virtualMachineRef") = Some name →
       opt_in (st !! "lastPhase") ["AssignedFromPool"; "Cloned"; "Running"]
       = true →
       calls (trace (exec o (create timeoutMs name st retry) p w)) !! 0%nat
       = Some (patch_vm namespace name (finalize_patch_body name))).
Proof.
  split; [|split; [|split]].
  - intros v p w. unfold _ensure_vm_patched_and_running, exec. cbn.
    answer o. by destruct x as [e|[]].
  - intros old v new. subst new. cbn.
    split_and!; try done;
      try (apply lookup_union_Some_l; rewrite ?lookup_insert_ne by done;
           apply lookup_insert_eq).
    + intros k Hk. rewrite lookup_union_r; [done|].
      by rewrite lookup_insert_ne.
    + intros k Hk. rewrite lookup_union_r; [done|].
      rewrite !elem_of_cons, elem_of_nil in Hk.
      rewrite !lookup_insert_ne by intuition. done.
  - intros timeoutMs name st retry p w c cl w1 Hs Hc Hget Hph.
    unfold cyberdesk_create, exec. rewrite not_bound_steady by done.
    rewrite Hc. unfold check_clone_status. rewrite Hc.
    cbn. rewrite Hget. cbn. rewrite Hph.
    unfold _ensure_vm_patched_and_running, plus_milliseconds.
    cbn. answer o. destruct x as [e|[]]; cbn; [done|].
    answer o. by destruct (representable _).
  - intros timeoutMs name st retry p w Hv Hph.
    unfold cyberdesk_create, exec. rewrite Hv, Hph.
    unfold already_provisioned, _ensure_vm_patched_and_running,
      plus_milliseconds.
    cbn. answer o. destruct x as [e|[]]; cbn; [done|].
    destruct (_ || _); cbn; [|done].
    answer o. by destruct (representable _).
Qed.

(** *** The cloning state *)

(** C2.  In the cloning state (the desktop is not bound and the status names
    a clone operation), when the clone object is found with a phase that is
    none of [Succeeded], [Failed] and [Unknown]: if the retry counter has
    reached 20, the handler deletes the clone object, whatever that call
    answers (a 404 or any other API error does not matter), writes
    [lastPhase = CloneTimeout] with a null [cloneOperationName] and a null
    [virtualMachineRef], so that both are unset in the status, and raises a
    [PermanentError]; below 20 it makes no other call, writes nothing and
    raises a [TemporaryError] with a delay of 5 seconds. *)
Theorem clone_timeout_after_20_attempts timeoutMs name st retry p w c cl w1 :
  bound_steady st = false →
  nonempty (st !! "cloneOperationName") = Some c →
  o (get_clone namespace c) w = (inr cl, w1) →
  in_progress (clone_phase cl) = true →
  let out := exec o (create timeoutMs name st retry) p w in
  (20 ≤ retry →
     res out = Raised PermanentError
     ∧ calls (trace out) = [get_clone namespace c; delete_clone namespace c]
     ∧ patch out = <["cyberdesk_create" := abandoned_status st "CloneTimeout"]> p
     ∧ status_after st (patch out) !! "lastPhase" = Some "CloneTimeout"
     ∧ status_after st (patch out) !! "cloneOperationName" = None
     ∧ status_after st (patch out) !! "virtualMachineRef" = None)
  ∧ (retry < 20 →
       res out = Raised (TemporaryError (Some 5))
       ∧ calls (trace out) = [get_clone namespace c]
       ∧ patch out = p).
Proof.
  intros Hs Hc Hget Hph out.
  pose proof (clone_in_progress_run timeoutMs name st retry p w c cl w1
                Hs Hc Hget Hph) as H.
  fold out in H. split; intros Hretry.
  - rewrite bool_decide_eq_true_2 in H by done.
    destruct H as (Hres & Hcalls & Hpatch).
    split; [done|]. split; [done|]. split; [done|].
    unfold status_after. rewrite Hpatch, lookup_insert_eq.
    rewrite !apply_status_patch_lookup. unfold abandoned_status.
    rewrite lookup_insert_eq.
    rewrite (lookup_insert_ne _ "virtualMachineRef" "cloneOperationName")
      by done.
    rewrite lookup_insert_eq.
    rewrite !(lookup_insert_ne _ _ "lastPhase") by done.
    by rewrite lookup_insert_eq.
  - by rewrite bool_decide_eq_false_2 in H by lia.
Qed.

(** C5.  In the cloning state, when the clone object is found with the phase
    [Succeeded] and the finalization patch of the VM named as the desktop is
    accepted, the calls of the handler are the lookup of the clone, that
    patch and the reading of the clock, and the handler returns after one
    write of the status, with [virtualMachineRef] the name of the desktop,
    [lastPhase = Cloned], [startTime] the time read, [expiryTime] that time
    plus [timeoutMs] and a null [cloneOperationName], which unsets it. *)
Theorem clone_success_binds timeoutMs name st retry p w c cl w1 w2 now w3 :
  bound_steady st = false →
  nonempty (st !! "cloneOperationName") = Some c →
  o (get_clone namespace c) w = (inr cl, w1) →
  clone_phase cl = Some "Succeeded" →
  o (patch_vm namespace name (finalize_patch_body name)) w1 = (inr tt, w2) →
  o datetime_now w2 = (now, w3) →
  let timeout_ms := default 3600000 timeoutMs in
  representable (now + 1000 * timeout_ms) = true →
  let out := exec o (create timeoutMs name st retry) p w in
  calls (trace out)
  = [get_clone namespace c;
     patch_vm namespace name (finalize_patch_body name);
     datetime_now]
  ∧ res out = Returned tt
  ∧ patch out !! "cyberdesk_create"
    = Some (list_to_map
              [("virtualMachineRef", Some name);
               ("startTime", Some (isoformat now));
               ("expiryTime", Some (isoformat (now + 1000 * timeout_ms)));
               ("lastPhase", Some "Cloned");
               ("cloneOperationName", None)])
  ∧ status_after st (patch out) !! "virtualMachineRef" = Some name
  ∧ status_after st (patch out) !! "cloneOperationName" = None.
Proof.
  intros Hs Hc Hget Hph Hpatch Hnow timeout_ms Hrep out.
  destruct (clone_success_run timeoutMs name st retry p w c cl w1 w2 now w3
              Hs Hc Hget Hph Hpatch Hnow Hrep) as (Hres & Hcalls & Hp).
  fold out in Hres, Hcalls, Hp.
  split; [done|]. split; [done|]. split; [exact Hp|].
  unfold status_after. rewrite Hp.
  by rewrite !apply_status_patch_lookup.
Qed.

(** *** The fresh state *)

(** C3.  For a fresh desktop (neither reference set) for which the pool
    claimer returns no VM, the handler writes [lastPhase = CloningInitiated]
    and [cloneOperationName = "clone-for-" + name] (with a null
    [virtualMachineRef]) and raises a [TemporaryError] with a delay of 5
    seconds; its calls are those of the pool claimer, so no clone object is
    created.  And in whatever state the handler runs, a clone object that it
    creates bears the name that the handler read from the status: the
    creation happens in an invocation after the one that wrote the name. *)
Theorem pool_miss_defers_clone_creation timeoutMs name st retry p w :
  nonempty (st !! "virtualMachineRef") = None →
  nonempty (st !! "cloneOperationName") = None →
  res (exec o (get_free_vm_from_pool namespace) p w) = Returned None →
  let out := exec o (create timeoutMs name st retry) p w in
  res out = Raised (TemporaryError (Some 5))
  ∧ patch out
    = <["cyberdesk_create" :=
          list_to_map [("cloneOperationName", Some ("clone-for-" +:+ name));
                       ("lastPhase", Some "CloningInitiated");
                       ("virtualMachineRef", None)]]> p
  ∧ status_after st (patch out) !! "cloneOperationName"
    = Some ("clone-for-" +:+ name)
  ∧ Forall (λ r, creates_any_clone r = false) (calls (trace out))
  ∧ (∀ timeoutMs' st' retry' p' w',
       Forall (create_allowed namespace name st')
         (calls (trace (exec o (create timeoutMs' name st' retry') p' w')))).
Proof.
  intros Hv Hc Hpool out.
  destruct (pool_miss_run timeoutMs name st retry p w Hv Hc Hpool)
    as (Hres & Hpatch & _ & Hcalls).
  fold out in Hres, Hpatch, Hcalls.
  split; [done|]. split; [done|]. split.
  { unfold status_after. rewrite Hpatch, lookup_insert_eq.
    by rewrite apply_status_patch_lookup. }
  split; [done|]. intros timeoutMs' st' retry' p' w'.
  destruct (cyberdesk_create_run timeoutMs' name retry' st' p' w')
    as (r & p1 & w1 & tr & Hrun & _ & Hall).
  unfold exec. by rewrite Hrun.
Qed.

(** *** The default lifetime *)

(** C10.  A desktop whose spec has no [timeoutMs] is reconciled as one whose
    [timeoutMs] is 3,600,000: the omission itself changes nothing and makes
    nothing fail.  On each of the three paths that write the times (a VM
    claimed from the pool, once the notification of the gateway has not
    raised; a clone that succeeded; a bound desktop whose status lacks a
    time) the handler returns, and the status it writes has [startTime] the
    time read from the clock and [expiryTime] that time plus one hour. *)
Theorem default_timeout_is_one_hour :
  (∀ name st retry,
     create None name st retry = create (Some 3600000) name st retry)
  ∧ (∀ name st retry p w v cur w2 w3 i w4 now w6,
       nonempty (st !! "virtualMachineRef") = None →
       nonempty (st !! "cloneOperationName") = None →
       let pool := exec o (get_free_vm_from_pool namespace) p w in
       res pool = Returned (Some v) →
       o (get_vm namespace v) (world pool) = (inr cur, w2) →
       let body :=
         {| vp_ownerReferences_null := false;
            vp_labels :=
              Some (list_to_map [("app", "cyberdesk");
                                 ("cyberdesk-instance", name);
                                 ("managed-by", MANAGED_BY)]
                    ∪ vm_labels cur);
            vp_runStrategy := None;
            vp_template_labels :=
              Some (list_to_map [("app", "cyberdesk");
                                 ("cyberdesk-instance", name);
                                 ("managed-by", MANAGED_BY);
                                 ("kubevirt.io/domain", name)]
                    ∪ vm_template_labels cur);
            vp_hostname := None |} in
       o (patch_vm namespace v body) w2 = (inr tt, w3) →
       o (get_vmi namespace v) w3 = (inr i, w4) →
       truthy (hd None (vmi_interfaces i)) = true →
       vmi_phase i = Some "Running" →
       let notified :=
         exec o (notify_gateway gateway valid_url name 5) p w4 in
       res notified = Returned tt →
       o datetime_now (world notified) = (now, w6) →
       representable (now + one_hour) = true →
       let out := exec o (create None name st retry) p w in
       res out = Returned tt
       ∧ patch out !! "cyberdesk_create"
         = Some (bound_status v (isoformat now) (isoformat (now + one_hour))
                   "AssignedFromPool"))
  ∧ (∀ name st retry p w c cl w1 w2 now w3,
       bound_steady st = false →
       nonempty (st !! "cloneOperationName") = Some c →
       o (get_clone namespace c) w = (inr cl, w1) →
       clone_phase cl = Some "Succeeded" →
       o (patch_vm namespace name (finalize_patch_body name)) w1
         = (inr tt, w2) →
       o datetime_now w2 = (now, w3) →
       representable (now + one_hour) = true →
       let out := exec o (create None name st retry) p w in
       res out = Returned tt
       ∧ patch out !! "cyberdesk_create"
         = Some (bound_status name (isoformat now)
                   (isoformat (now + one_hour)) "Cloned"))
  ∧ (∀ name st retry p w v w1 now w2,
       nonempty (st !! "virtualMachineRef") = Some v →
       opt_in (st !! "lastPhase") ["AssignedFromPool"; "Cloned"; "Running"]
       = true →
       contains st "startTime" && contains st "expiryTime" = false →
       o (patch_vm namespace v (finalize_patch_body v)) w = (inr tt, w1) →
       o datetime_now w1 = (now, w2) →
       representable (now + one_hour) = true →
       let out := exec o (create None name st retry) p w in
       res out = Returned tt
       ∧ ∃ d, patch out !! "cyberdesk_create" = Some d
              ∧ d !! "startTime" = Some (Some (isoformat now))
              ∧ d !! "expiryTime" = Some (Some (isoformat (now + one_hour)))).
Proof.
  split; [done|]. split; [|split].
  - intros name st retry p w v cur w2 w3 i w4 now w6 Hv Hc pool Hpool Hget
      body Hpatch Hvmi Hip Hph notified Hnotified Hnow Hrep.
    exact (pool_success_run None name st retry p w v cur w2 w3 i w4 now w6
             Hv Hc Hpool Hget Hpatch Hvmi Hip Hph Hnotified Hnow Hrep).
  - intros name st retry p w c cl w1 w2 now w3 Hs Hc Hget Hph Hpatch Hnow
      Hrep.
    destruct (clone_success_run None name st retry p w c cl w1 w2 now w3
                Hs Hc Hget Hph Hpatch Hnow Hrep) as (Hres & _ & Hp).
    by split.
  - intros name st retry p w v w1 now w2 Hv Hph Htimes Hpatch Hnow Hrep.
    destruct (repopulate_run None name st retry p w v w1 now w2
                Hv Hph Htimes Hpatch Hnow Hrep)
      as (Hres & _ & d & Hd & _ & Hstart & Hexpiry).
    split; [done|]. by exists d.
Qed.

End Reconciler.

(** ** Mutual exclusion of the two references *)

Lemma create_patch_shape {W} (o : oracle W) namespace gateway valid_url isoformat
    timeoutMs name st retry p w :
  patch_shape st p
    (patch (exec o (cyberdesk_create namespace gateway valid_url isoformat timeoutMs
                      name st retry) p w)).
Proof.
  destruct (cyberdesk_create_run o namespace gateway valid_url isoformat timeoutMs name
              retry st p w) as (r & p' & w' & tr & Hrun & Hshape & _).
  unfold exec. by rewrite Hrun.
Qed.

Lemma patch_shape_exclusive st p' :
  patch_shape st ∅ p' →
  mutually_exclusive st →
  mutually_exclusive (status_after st p').
Proof.
  unfold mutually_exclusive, status_after.
  intros [->|(d & -> & Hd)] Hst; [done|].
  rewrite !apply_status_patch_lookup.
  destruct Hd as [[-> _]|[[_ ->]|(-> & [v Hv] & ->)]].
  - intros [[? ?] _]. done.
  - intros [_ [? ?]]. done.
  - rewrite Hv. cbn. intros [_ Hc]. apply Hst. by rewrite Hv.
Qed.

(** A status in which the two references are not both present stays so
    when the patch of [cyberdesk_create] is applied, and no status that the
    reconciler produces from an empty one has both. *)
Lemma references_stay_exclusive namespace gateway valid_url isoformat :
  (∀ W (o : oracle W) timeoutMs name st retry w,
     mutually_exclusive st →
     mutually_exclusive
       (status_after st
          (patch (exec o (cyberdesk_create namespace gateway valid_url
                            isoformat timeoutMs name st retry) ∅ w))))
  ∧ (∀ st, reachable namespace gateway valid_url isoformat st →
           mutually_exclusive st).
Proof.
  split.
  - intros W o timeoutMs name st retry w. apply patch_shape_exclusive.
    apply create_patch_shape.
  - intros st Hreach. induction Hreach as [|st W o w timeoutMs name retry _ IH].
    + intros [[? H] _]. by rewrite lookup_empty in H.
    + eapply patch_shape_exclusive; [apply create_patch_shape | exact IH].
Qed.

(** ** Runs against the example cluster *)

Import Cluster.

(** A first pass on a cluster without a pool initiates cloning; the second
    pass creates the clone object. *)
Example first_pass_initiates_cloning :
  let out := reconcile_desk_1 ∅ empty_cluster in
  res out = Raised (TemporaryError (Some 5))
  ∧ map_to_list (status_after ∅ (patch out))
    = [("cloneOperationName", "clone-for-desk-1");
       ("lastPhase", "CloningInitiated")]
  ∧ calls (trace out) = [list_vm "kubevirt" "pool.kubevirt.io/warm=ready"].
Proof. vm_compute. split; [|split]; exact eq_refl. Qed.

Example second_pass_creates_clone :
  let first := reconcile_desk_1 ∅ empty_cluster in
  let out := reconcile_desk_1 (status_after ∅ (patch first)) (world first) in
  res out = Raised (TemporaryError (Some 5))
  ∧ calls (trace out)
    = [get_clone "kubevirt" "clone-for-desk-1";
       create_clone "kubevirt"
         (clone_manifest "clone-for-desk-1" "kubevirt" "desk-1")]
  ∧ patch out !! "cyberdesk_create" = None.
Proof. vm_compute. split; [|split]; exact eq_refl. Qed.

(** A pool hit: the warm VM is claimed, labelled and bound. *)
Example pool_hit_binds_warm_vm :
  let out := reconcile_desk_1 ∅ cluster_with_pool in
  res out = Returned tt
  ∧ status_after ∅ (patch out) !! "virtualMachineRef" = Some "vm-a"
  ∧ status_after ∅ (patch out) !! "lastPhase" = Some "AssignedFromPool"
  ∧ (vm_labels <$> vms (world out) !! "vm-a") ≫= (.!! "cyberdesk-instance")
    = Some "desk-1"
  ∧ (vm_labels <$> vms (world out) !! "vm-a") ≫= (.!! "pool.kubevirt.io/warm")
    = Some "claimed"
  ∧ (vm_ownerReferences <$> vms (world out) !! "vm-a") = Some [].
Proof. vm_compute. split_and!; exact eq_refl. Qed.

(** With a gateway URL that has no type, the pool path claims and labels
    the warm VM and then fails in [Request]: the [ValueError] leaves the
    handler, nothing is posted and nothing is written into the status,
    while the VM stays claimed. *)
Example pool_hit_with_url_without_type :
  let out :=
    exec api_server
      (cyberdesk_create "kubevirt" (Some "gateway") valid_url isoformat
         (Some 600000) "desk-1" ∅ 0)
      ∅ cluster_with_pool in
  res out = Raised ValueError
  ∧ patch out !! "cyberdesk_create" = None
  ∧ last (calls (trace out)) = Some (get_vmi "kubevirt" "vm-a")
  ∧ (vm_labels <$> vms (world out) !! "vm-a") ≫= (.!! "pool.kubevirt.io/warm")
    = Some "claimed".
Proof. vm_compute. split_and!; exact eq_refl. Qed.

(** A clone that is still in progress at the twentieth retry is deleted and
    the desktop is marked [CloneTimeout]. *)
Example clone_timeout_scenario :
  let out :=
    exec api_server
      (cyberdesk_create "kubevirt" None valid_url isoformat (Some 600000) "desk-2"
         cloning_desk 20)
      ∅ (cluster_with_clone (Some "SnapshotInProgress")) in
  res out = Raised PermanentError
  ∧ clones (world out) !! "clone-for-desk-2" = None
  ∧ map_to_list (status_after cloning_desk (patch out))
    = [("lastPhase", "CloneTimeout")].
Proof. vm_compute. split_and!; exact eq_refl. Qed.

(** The deletion of a desktop that is still cloning deletes the clone object
    and leaves the VMs alone. *)
Example delete_during_cloning :
  let out :=
    exec api_server (cyberdesk_delete "kubevirt" "desk-2" cloning_desk)
      ∅ (cluster_with_clone None) in
  res out = Returned tt
  ∧ calls (trace out) = [delete_clone "kubevirt" "clone-for-desk-2"]
  ∧ clones (world out) !! "clone-for-desk-2" = None
  ∧ is_Some (vms (world out) !! "desk-2").
Proof. vm_compute. split_and!; [exact eq_refl ..|by eexists]. Qed.

(** At the expiry the timer deletes the Cyberdesk, not the VM. *)
Example expiry_deletes_the_desktop :
  let out :=
    exec api_server
      (cyberdesk_timeout_check fromisoformat "desk-2" "cyberdesk-system"
         (list_to_map [("virtualMachineRef", "desk-2"); ("expiryTime", "0")]))
      ∅ (cluster_with_clone None) in
  res out = Returned tt
  ∧ calls (trace out)
    = [datetime_now; delete_cyberdesk "cyberdesk-system" "desk-2"]
  ∧ elements (cyberdesks (world out)) = []
  ∧ is_Some (vms (world out) !! "desk-2").
Proof. vm_compute. split_and!; [exact eq_refl ..|by eexists]. Qed.

(** C6.  The re-patch of a bound desktop sets [virtualMachineRef] without
    clearing [cloneOperationName].  On a status that has both references,
    with [lastPhase = Cloned] and both times, and a cluster that has the VM,
    the handler returns; the dictionary it writes sets [virtualMachineRef]
    and has no [cloneOperationName] key (the key is deleted from the
    dictionary, not set to null), so the status that results from the merge
    patch still has both references: it is not mutually exclusive. *)
Theorem repatch_leaves_clone_operation_name :
  let st := desk_with_both_references in
  let out :=
    exec api_server
      (cyberdesk_create "kubevirt" None valid_url isoformat None "desk-2" st 0)
      ∅ (cluster_with_clone None) in
  res out = Returned tt
  ∧ (∃ d, patch out !! "cyberdesk_create" = Some d
          ∧ sets d "virtualMachineRef"
          ∧ d !! "cloneOperationName" = None)
  ∧ status_after st (patch out) !! "virtualMachineRef" = Some "desk-2"
  ∧ status_after st (patch out) !! "cloneOperationName"
    = Some "clone-for-desk-2"
  ∧ ¬ mutually_exclusive (status_after st (patch out)).
Proof.
  assert (H :
    let st := desk_with_both_references in
    let out :=
      exec api_server
        (cyberdesk_create "kubevirt" None valid_url isoformat None "desk-2"
           st 0)
        ∅ (cluster_with_clone None) in
    res out = Returned tt
    ∧ (patch out !! "cyberdesk_create") ≫= (.!! "virtualMachineRef")
      = Some (Some "desk-2")
    ∧ (patch out !! "cyberdesk_create") ≫= (.!! "cloneOperationName") = None
    ∧ is_Some (patch out !! "cyberdesk_create")
    ∧ status_after st (patch out) !! "virtualMachineRef" = Some "desk-2"
    ∧ status_after st (patch out) !! "cloneOperationName"
      = Some "clone-for-desk-2").
  { vm_compute. split_and!; [exact eq_refl..|by eexists|exact eq_refl
                            |exact eq_refl]. }
  cbv zeta in H |- *.
  destruct H as (Hres & Hv & Hc & [d Hd] & Hsv & Hsc).
  rewrite Hd in Hv, Hc. cbn in Hv, Hc.
  split_and!; [done| |done|done|].
  - exists d. split; [done|]. split; [by exists "desk-2"|done].
  - intros Hex. apply Hex. rewrite Hsv, Hsc. by split.
Qed.

(** C1, counterexample.  After the clone of [desk-2] has succeeded, the
    handler finalizes the VM [desk-2] and binds it, and the only top-level
    label of the VM is [managed-by]: neither [app] nor [cyberdesk-instance]
    is there.  And when the desktop [desk-1] is bound to the pool VM [vm-a],
    whose template carries [cyberdesk-instance = desk-1], the next pass
    patches the VM with its own name: the template label becomes [vm-a] and
    so does the hostname. *)
Lemma finalization_counterexample :
  (let out :=
     exec api_server
       (cyberdesk_create "kubevirt" None valid_url isoformat (Some 600000) "desk-2"
          cloning_desk 2)
       ∅ (cluster_with_clone (Some "Succeeded")) in
   res out = Returned tt
   ∧ status_after cloning_desk (patch out) !! "lastPhase" = Some "Cloned"
   ∧ (map_to_list ∘ vm_labels <$> vms (world out) !! "desk-2")
     = Some [("managed-by", "cyberdesk-operator")])
  ∧ (let first := reconcile_desk_1 ∅ cluster_with_pool in
     let bound := status_after ∅ (patch first) in
     let out := reconcile_desk_1 bound (world first) in
     bound !! "virtualMachineRef" = Some "vm-a"
     ∧ (vm_template_labels <$> vms (world first) !! "vm-a")
         ≫= (.!! "cyberdesk-instance") = Some "desk-1"
     ∧ res out = Returned tt
     ∧ (vm_template_labels <$> vms (world out) !! "vm-a")
         ≫= (.!! "cyberdesk-instance") = Some "vm-a"
     ∧ (vms (world out) !! "vm-a") ≫= vm_hostname = Some "vm-a").
Proof. vm_compute. split_and!; exact eq_refl. Qed.

Lemma finalization_patch_witness :
  calls (trace (exec api_server
                  (cyberdesk_create "kubevirt" None valid_url isoformat (Some 600000)
                     "desk-2" cloning_desk 2)
                  ∅ (cluster_with_clone (Some "Succeeded")))) !! 1%nat
  = Some (patch_vm "kubevirt" "desk-2" (finalize_patch_body "desk-2"))
  ∧ calls (trace (exec api_server
                    (cyberdesk_create "kubevirt" None valid_url isoformat (Some 600000)
                       "desk-2" cloned_desk_without_times 0)
                    ∅ (cluster_with_clone None))) !! 0%nat
    = Some (patch_vm "kubevirt" "desk-2" (finalize_patch_body "desk-2")).
Proof.
  pose proof (finalization_patch_effect api_server "kubevirt" None valid_url isoformat)
    as (_ & _ & Hclone & Hbound).
  split.
  - eapply (Hclone (Some 600000) "desk-2" cloning_desk 2 ∅ _
              "clone-for-desk-2"); reflexivity.
  - apply (Hbound (Some 600000) "desk-2" cloned_desk_without_times 0 ∅);
      reflexivity.
Defined.

Lemma clone_timeout_witness :
  res (exec api_server
         (cyberdesk_create "kubevirt" None valid_url isoformat None "desk-2"
            cloning_desk 20)
         ∅ (cluster_with_clone (Some "SnapshotInProgress")))
  = Raised PermanentError
  ∧ res (exec api_server
           (cyberdesk_create "kubevirt" None valid_url isoformat None "desk-2"
              cloning_desk 19)
           ∅ (cluster_with_clone (Some "SnapshotInProgress")))
    = Raised (TemporaryError (Some 5)).
Proof.
  split.
  - eapply (clone_timeout_after_20_attempts api_server "kubevirt" None valid_url
              isoformat None "desk-2" cloning_desk 20 ∅ _ "clone-for-desk-2");
      [reflexivity .. | lia].
  - eapply (clone_timeout_after_20_attempts api_server "kubevirt" None valid_url
              isoformat None "desk-2" cloning_desk 19 ∅ _ "clone-for-desk-2");
      [reflexivity .. | lia].
Defined.

Lemma pool_miss_witness :
  res (reconcile_desk_1 ∅ empty_cluster) = Raised (TemporaryError (Some 5)).
Proof.
  apply (pool_miss_defers_clone_creation api_server "kubevirt" None valid_url isoformat
           (Some 600000) "desk-1" ∅ 0 ∅ empty_cluster); reflexivity.
Defined.

Lemma clone_success_witness :
  res (exec api_server
         (cyberdesk_create "kubevirt" None valid_url isoformat (Some 600000) "desk-2"
            cloning_desk 2)
         ∅ (cluster_with_clone (Some "Succeeded")))
  = Returned tt.
Proof.
  eapply (clone_success_binds api_server "kubevirt" None valid_url isoformat
            (Some 600000) "desk-2" cloning_desk 2 ∅ _ "clone-for-desk-2");
    reflexivity.
Defined.

Lemma pool_claim_witness :
  res (exec (refusing conflict) (get_free_vm_from_pool "kubevirt") ∅ tt)
  = Raised (TemporaryError (Some 15))
  ∧ res (exec (refusing conflict) (claim_first "kubevirt" [warm_vm; warm_vm])
           ∅ tt)
    = res (exec (refusing conflict) (claim_first "kubevirt" [warm_vm]) ∅ tt).
Proof.
  pose proof (pool_claim_continues (refusing conflict) "kubevirt")
    as [Hlist Hpatch].
  split.
  - eapply Hlist. reflexivity.
  - eapply (Hpatch warm_vm [warm_vm] "vm-a"); reflexivity.
Defined.

Lemma default_timeout_witness :
  res (exec api_server
         (cyberdesk_create "kubevirt" None valid_url isoformat None "desk-1" ∅ 0)
         ∅ cluster_with_pool) = Returned tt
  ∧ res (exec api_server
           (cyberdesk_create "kubevirt" None valid_url isoformat None "desk-2"
              cloning_desk 2)
           ∅ (cluster_with_clone (Some "Succeeded"))) = Returned tt
  ∧ res (exec api_server
           (cyberdesk_create "kubevirt" None valid_url isoformat None "desk-2"
              cloned_desk_without_times 0)
           ∅ (cluster_with_clone None)) = Returned tt.
Proof.
  pose proof (default_timeout_is_one_hour api_server "kubevirt" None valid_url isoformat)
    as (_ & Hpool & Hclone & Hbound).
  split; [|split].
  - eapply (Hpool "desk-1" ∅ 0 ∅ cluster_with_pool "vm-a"); reflexivity.
  - eapply (Hclone "desk-2" cloning_desk 2 ∅ _ "clone-for-desk-2"); reflexivity.
  - eapply (Hbound "desk-2" cloned_desk_without_times 0 ∅ _ "desk-2");
      reflexivity.
Defined.


(** * Further properties *)

(** ** All the paths of the reconciler *)

Section Paths.

Context {W : Type} (o : oracle W).
Context (namespace : string) (gateway : option string)
  (valid_url : string → bool) (isoformat : Z → string).

Ltac paths :=
  repeat (cbn;
    match goal with
    | |- context [o ?r ?w] =>
        let x := fresh "x" in
        let w' := fresh "w" in
        destruct (o r w) as [x w'] eqn:?; cbn in x
    | |- context [match ?x with inl _ => _ | inr _ => _ end] =>
        is_var x; destruct x
    | |- context [match ?x with Some _ => _ | None => _ end] =>
        is_var x; destruct x
    | |- context [match ?x with
                  | Responded _ => _ | NamedError => _ | OtherError => _
                  end] =>
        is_var x; destruct x
    | |- context [if ?b then _ else _] => destruct b eqn:?
    | |- context [match nonempty ?x with _ => _ end] =>
        destruct (nonempty x) eqn:?
    end).

Ltac ends_as :=
  eexists _, _, _, _; (split; [reflexivity|]).

Ltac call_ok :=
  cbn;
  first [ exact I
        | split; [by apply Z.geb_le | done]
        | split; [done | eauto] ].

Ltac calls_ok :=
  cbn; repeat (apply Forall_cons_2; [call_ok|]); apply Forall_nil_2.

Lemma pool_call_ok name st retry r :
  pool_call r = true → create_call_ok gateway name st retry r.
Proof. by destruct r. Qed.

Lemma outcome_of_bound name st p v now e ph :
  ph ∈ ["AssignedFromPool"; "Cloned"] →
  create_outcome gateway valid_url isoformat name st p (Returned tt)
    (delete "expiryTime" (delete "startTime" (delete "virtualMachineRef"
       (<["cyberdesk_create" :=
            bound_status v (isoformat now) (isoformat e) ph]> p)))).
Proof.
  intros Hph. eapply (outcome_bound _ _ _ _ _ _ v now e ph); [done|].
  by rewrite !lookup_delete_ne, lookup_insert_eq by done.
Qed.

Lemma outcome_of_repatch name st p v d :
  st !! "virtualMachineRef" = Some v →
  opt_in (st !! "lastPhase") ["AssignedFromPool"; "Cloned"; "Running"] = true →
  (d = spread st
   ∧ contains st "startTime" && contains st "expiryTime" = true
   ∨ ∃ now expiry,
       d = <["expiryTime" := Some (isoformat expiry)]>
             (<["startTime" := Some (isoformat now)]> (spread st))) →
  create_outcome gateway valid_url isoformat name st p (Returned tt)
    (alter (delete "cloneOperationName") "cyberdesk_create"
       (delete "expiryTime" (delete "startTime" (delete "virtualMachineRef"
          (<["cyberdesk_create" := d]> p))))).
Proof.
  intros Hv Hph Hd. eapply (outcome_repatched _ _ _ _ _ _ v d); [done..| |done].
  by rewrite lookup_alter_eq, !lookup_delete_ne, lookup_insert_eq by done.
Qed.

Lemma already_provisioned_outcome name v timeout retry st p w :
  st !! "virtualMachineRef" = Some v →
  opt_in (st !! "lastPhase") ["AssignedFromPool"; "Cloned"; "Running"] = true →
  ∃ r p' w' tr,
    run o (already_provisioned isoformat v namespace timeout st p) w
    = ((r, p'), w', tr)
    ∧ r ≠ Returned false
    ∧ create_outcome gateway valid_url isoformat name st p (forget r) p'
    ∧ Forall (create_call_ok gateway name st retry) (calls tr).
Proof.
  intros Hv Hph.
  unfold already_provisioned, _ensure_vm_patched_and_running, plus_milliseconds.
  paths; ends_as; (split; [done|]).
  all: split; [|calls_ok].
  all: try by constructor.
  all: apply (outcome_of_repatch name st p v); [done..|].
  - right. by eexists _, _.
  - left. split; [done|].
    by destruct (contains st "startTime"), (contains st "expiryTime").
Qed.

Lemma check_clone_status_outcome c name timeout retry st p w :
  nonempty (st !! "cloneOperationName") = Some c →
  ∃ r p' w' tr,
    run o (check_clone_status isoformat (st !! "cloneOperationName") namespace
             name timeout retry 20 5 st p) w
    = ((r, p'), w', tr)
    ∧ create_outcome gateway valid_url isoformat name st p r p'
    ∧ Forall (create_call_ok gateway name st retry) (calls tr).
Proof.
  intros Hc. unfold check_clone_status. rewrite Hc.
  unfold _ensure_vm_patched_and_running, plus_milliseconds.
  paths; ends_as.
  all: split; [|calls_ok].
  all: try by constructor.
  all: try (apply outcome_of_bound; (rewrite !elem_of_cons, elem_of_nil; auto)).
  all: apply outcome_abandoned; (rewrite !elem_of_cons, elem_of_nil; auto).
Qed.

Lemma bind_pool_vm_outcome v name timeout retry st p w :
  ∃ r p' w' tr,
    run o (bind_pool_vm gateway valid_url isoformat v namespace name timeout p) w
    = ((r, p'), w', tr)
    ∧ create_outcome gateway valid_url isoformat name st p r p'
    ∧ Forall (create_call_ok gateway name st retry) (calls tr).
Proof.
  unfold bind_pool_vm, notify_gateway, plus_milliseconds.
  paths; ends_as.
  all: split; [|calls_ok].
  all: try by constructor.
  all: try by eapply outcome_url_without_type.
  all: try by eapply outcome_urlopen_raised.
  all: apply outcome_of_bound; (rewrite !elem_of_cons, elem_of_nil; auto).
Qed.

Lemma cyberdesk_create_outcome timeoutMs name retry st p w :
  ∃ r p' w' tr,
    run o (cyberdesk_create namespace gateway valid_url isoformat timeoutMs name st
             retry p) w
    = ((r, p'), w', tr)
    ∧ create_outcome gateway valid_url isoformat name st p r p'
    ∧ Forall (create_call_ok gateway name st retry) (calls tr).
Proof.
  unfold cyberdesk_create.
  cbn -[already_provisioned check_clone_status bind_pool_vm
        get_free_vm_from_pool initiate_cloning].
  rewrite run_bind.
  assert (Hrest : ∀ w,
    ∃ r p' w' tr,
      run o (match nonempty (st !! "cloneOperationName") with
             | Some _ =>
                 (say INFO;;;
                  check_clone_status isoformat (st !! "cloneOperationName")
                    namespace name (default 3600000 timeoutMs) retry 20 5 st)%handler
             | None =>
                 (say INFO;;;
                  let! assigned_vm_name := get_free_vm_from_pool namespace in
                  match nonempty assigned_vm_name with
                  | Some assigned_vm_name =>
                      bind_pool_vm gateway valid_url isoformat assigned_vm_name namespace
                        name (default 3600000 timeoutMs)
                  | None => initiate_cloning name 5
                  end)%handler
             end p) w = ((r, p'), w', tr)
      ∧ create_outcome gateway valid_url isoformat name st p r p'
      ∧ Forall (create_call_ok gateway name st retry) (calls tr)).
  { intros w0. destruct (nonempty (st !! "cloneOperationName")) as [c|] eqn:Hc.
    - cbn -[check_clone_status].
      destruct (check_clone_status_outcome c name (default 3600000 timeoutMs)
                  retry st p w0 Hc) as (r & p' & w' & tr & -> & ? & ?).
      by ends_as.
    - cbn -[get_free_vm_from_pool bind_pool_vm initiate_cloning].
      rewrite run_bind.
      destruct (get_free_vm_from_pool_run o namespace p w0)
        as (r & w1 & t1 & -> & Hr & Hcalls).
      eapply Forall_impl in Hcalls; [|apply (pool_call_ok name st retry)].
      destruct Hr as [->|(x & -> & Hx)].
      { ends_as. split; [by constructor|]. done. }
      destruct (nonempty x) as [v|].
      + destruct (bind_pool_vm_outcome v name (default 3600000 timeoutMs)
                    retry st p w1) as (r & p' & w' & t2 & -> & ? & ?).
        ends_as. split; [done|]. cbn. rewrite calls_app.
        by apply Forall_app.
      + cbn. ends_as. split; [apply outcome_initiated|].
        cbn. rewrite calls_app. cbn. by rewrite app_nil_r. }
  destruct (nonempty (st !! "virtualMachineRef")) as [v|] eqn:Hv.
  2:{ cbn. destruct (Hrest w) as (r & p' & w' & tr & -> & ? & ?). by ends_as. }
  destruct (opt_in _ _) eqn:Hph.
  2:{ cbn. destruct (Hrest w) as (r & p' & w' & tr & -> & ? & ?). by ends_as. }
  apply nonempty_Some in Hv as [Hv _].
  destruct (already_provisioned_outcome name v (default 3600000 timeoutMs)
              retry st p w Hv Hph) as (r & p' & w' & tr & -> & Hr & ? & ?).
  destruct r as [[]|e]; [| done |]; cbn; ends_as; rewrite ?app_nil_r; done.
Qed.

End Paths.

(** ** What every run of the reconciler guarantees *)

Ltac listed :=
  unfold written_phases in *;
  rewrite ?elem_of_cons, ?elem_of_nil in *;
  intuition (subst; auto; congruence).

Lemma create_exec_outcome {W} (o : oracle W) namespace gateway valid_url isoformat
    timeoutMs name st retry p w :
  let out :=
    exec o (cyberdesk_create namespace gateway valid_url isoformat timeoutMs name st
              retry) p w in
  create_outcome gateway valid_url isoformat name st p (res out) (patch out)
  ∧ Forall (create_call_ok gateway name st retry) (calls (trace out)).
Proof.
  destruct (cyberdesk_create_outcome o namespace gateway valid_url isoformat timeoutMs
              name retry st p w) as (r & p' & w' & tr & Hrun & Hout & Hcalls).
  unfold exec. by rewrite Hrun.
Qed.

Lemma bound_status_after st v s e ph p' :
  p' !! "cyberdesk_create" = Some (bound_status v s e ph) →
  status_after st p' !! "virtualMachineRef" = Some v
  ∧ status_after st p' !! "startTime" = Some s
  ∧ status_after st p' !! "expiryTime" = Some e
  ∧ status_after st p' !! "lastPhase" = Some ph
  ∧ status_after st p' !! "cloneOperationName" = None.
Proof.
  intros Hp. unfold status_after. rewrite Hp.
  by rewrite !apply_status_patch_lookup.
Qed.

Lemma cloning_status_after st c (p : kpatch) :
  let st' := status_after st (<["cyberdesk_create" := cloning_status c]> p) in
  st' !! "cloneOperationName" = Some c
  ∧ st' !! "lastPhase" = Some "CloningInitiated"
  ∧ st' !! "virtualMachineRef" = None
  ∧ ∀ k, k ∉ ["cloneOperationName"; "lastPhase"; "virtualMachineRef"] →
         st' !! k = st !! k.
Proof.
  unfold status_after. rewrite lookup_insert_eq.
  split_and!; [by rewrite apply_status_patch_lookup..|].
  intros k Hk. rewrite !elem_of_cons, elem_of_nil in Hk.
  rewrite apply_status_patch_lookup. unfold cloning_status. cbn.
  by rewrite !lookup_insert_ne, lookup_empty by intuition.
Qed.

Lemma abandoned_status_after st ph (p : kpatch) :
  let st' :=
    status_after st (<["cyberdesk_create" := abandoned_status st ph]> p) in
  st' !! "lastPhase" = Some ph
  ∧ st' !! "virtualMachineRef" = None
  ∧ st' !! "cloneOperationName" = None
  ∧ ∀ k, k ∉ ["lastPhase"; "virtualMachineRef"; "cloneOperationName"] →
         st' !! k = st !! k.
Proof.
  unfold status_after, abandoned_status. rewrite lookup_insert_eq.
  split_and!.
  - rewrite apply_status_patch_lookup.
    by rewrite !lookup_insert_ne, lookup_insert_eq by done.
  - by rewrite apply_status_patch_lookup, lookup_insert_eq.
  - rewrite apply_status_patch_lookup.
    by rewrite lookup_insert_ne, lookup_insert_eq by done.
  - intros k Hk. rewrite !elem_of_cons, elem_of_nil in Hk.
    rewrite apply_status_patch_lookup.
    rewrite !lookup_insert_ne by intuition.
    unfold spread. rewrite lookup_fmap. by destruct (st !! k).
Qed.

Lemma repatched_status_after isoformat st d p' :
  p' !! "cyberdesk_create" = Some (delete "cloneOperationName" d) →
  (d = spread st
   ∧ contains st "startTime" && contains st "expiryTime" = true
   ∨ ∃ now expiry,
       d = <["expiryTime" := Some (isoformat expiry)]>
             (<["startTime" := Some (isoformat now)]> (spread st))) →
  is_Some (status_after st p' !! "startTime")
  ∧ is_Some (status_after st p' !! "expiryTime")
  ∧ (∀ k, k ∉ ["startTime"; "expiryTime"] →
          status_after st p' !! k = st !! k)
  ∧ (∀ k s, k ∈ ["startTime"; "expiryTime"] →
            status_after st p' !! k = Some s →
            st !! k = Some s ∨ ∃ t : Z, s = isoformat t).
Proof.
  intros Hp Hd. unfold status_after. rewrite Hp.
  assert (Hspread : ∀ k,
    match spread st !! k with
    | Some (Some x) => Some x
    | Some None => None
    | None => st !! k
    end = st !! k).
  { intros k. unfold spread. rewrite lookup_fmap. by destruct (st !! k). }
  destruct Hd as [[-> Htimes]|(s & e & ->)].
  - apply andb_true_iff in Htimes as [Hs He]. unfold contains in Hs, He.
    split_and!.
    + rewrite apply_status_patch_lookup, lookup_delete_ne, Hspread by done.
      by destruct (st !! "startTime").
    + rewrite apply_status_patch_lookup, lookup_delete_ne, Hspread by done.
      by destruct (st !! "expiryTime").
    + intros k _. rewrite apply_status_patch_lookup.
      destruct (decide (k = "cloneOperationName")) as [->|Hk].
      * by rewrite lookup_delete_eq.
      * by rewrite lookup_delete_ne, Hspread by done.
    + intros k s Hk. rewrite apply_status_patch_lookup.
      rewrite lookup_delete_ne, Hspread by listed. by left.
  - split_and!.
    + rewrite apply_status_patch_lookup, lookup_delete_ne by done.
      by rewrite lookup_insert_ne, lookup_insert_eq by done.
    + rewrite apply_status_patch_lookup, lookup_delete_ne by done.
      by rewrite lookup_insert_eq.
    + intros k Hk. rewrite !elem_of_cons, elem_of_nil in Hk.
      rewrite apply_status_patch_lookup.
      destruct (decide (k = "cloneOperationName")) as [->|Hc].
      * by rewrite lookup_delete_eq.
      * rewrite lookup_delete_ne by done.
        rewrite !lookup_insert_ne by intuition. apply Hspread.
    + intros k s' Hk. rewrite apply_status_patch_lookup.
      rewrite lookup_delete_ne by listed.
      rewrite !elem_of_cons, elem_of_nil in Hk.
      destruct Hk as [->|[->|[]]].
      * rewrite lookup_insert_ne, lookup_insert_eq by done.
        intros [= <-]. right. by eexists.
      * rewrite lookup_insert_eq. intros [= <-]. right. by eexists.
Qed.

Lemma opt_in_elem_of x l s :
  opt_in x l = true → x = Some s → s ∈ l.
Proof.
  intros H ->. cbn in H. apply existsb_exists in H as (y & Hy & Heq).
  apply String.eqb_eq in Heq as ->. by apply list_elem_of_In.
Qed.

(** X1.  No [ApiException] escapes [cyberdesk_create].  Whatever the
    status, the world and the retry counter, the handler returns, or raises
    a [TemporaryError], a [PermanentError] or the [OverflowError] of a
    lifetime that does not fit a date, or lets through an exception of the
    gateway notification of the pool path, which nothing there catches: the
    [ValueError] of [Request] when the configured URL has no type, or, when
    it has one, an exception of [urlopen] that the source does not name. *)
Theorem create_contains_api_errors {W} (o : oracle W) namespace gateway
    valid_url isoformat timeoutMs name st retry p w :
  match res (exec o (cyberdesk_create namespace gateway valid_url isoformat
                       timeoutMs name st retry) p w) with
  | Returned _ => True
  | Raised (TemporaryError _) | Raised PermanentError
  | Raised OverflowError => True
  | Raised ValueError =>
      ∃ base, nonempty gateway = Some base
              ∧ valid_url (base +:+ "/cyberdesk/" +:+ name +:+ "/ready")
                = false
  | Raised OtherException =>
      ∃ base, nonempty gateway = Some base
              ∧ valid_url (base +:+ "/cyberdesk/" +:+ name +:+ "/ready")
                = true
  | Raised (ApiError _) | Raised TypeError => False
  end.
Proof.
  destruct (create_exec_outcome o namespace gateway valid_url isoformat
              timeoutMs name st retry p w) as [Hout _].
  destruct Hout; try done; by eexists.
Qed.

(** X2.  When [cyberdesk_create] returns, the status that results from its
    patch has a [virtualMachineRef], a [startTime] and an [expiryTime], and
    its [lastPhase] is one of the bound phases. *)
Theorem create_returns_only_when_bound {W} (o : oracle W) namespace gateway valid_url
    isoformat timeoutMs name st retry w :
  let out :=
    exec o (cyberdesk_create namespace gateway valid_url isoformat timeoutMs name st
              retry) ∅ w in
  res out = Returned tt →
  let st' := status_after st (patch out) in
  is_Some (st' !! "virtualMachineRef")
  ∧ is_Some (st' !! "startTime")
  ∧ is_Some (st' !! "expiryTime")
  ∧ ∃ phase, st' !! "lastPhase" = Some phase
             ∧ phase ∈ ["AssignedFromPool"; "Cloned"; "Running"].
Proof.
  intros out Hres st'. subst st'.
  destruct (create_exec_outcome o namespace gateway valid_url isoformat timeoutMs name
              st retry ∅ w) as [Hout _].
  fold out in Hout. rewrite Hres in Hout.
  inversion Hout as [| | |v s e ph p' Hph Hp|v d p' Hv Hphase Hp Hd| | |];
    subst.
  - destruct (bound_status_after st v _ _ ph _ Hp)
      as (-> & -> & -> & -> & _).
    split_and!; [by eexists..|]. exists ph. split; [done|listed].
  - destruct (repatched_status_after isoformat st d _ Hp Hd)
      as (Hs & He & Hk & _).
    rewrite (Hk "virtualMachineRef"), (Hk "lastPhase"), Hv by listed.
    split_and!; [by eexists|done|done|].
    destruct (st !! "lastPhase") as [ph|] eqn:Hl; [|by cbn in Hphase].
    exists ph. split; [done|]. by eapply opt_in_elem_of.
Qed.

(** X3.  When [cyberdesk_create] raises a [PermanentError], the failure is
    recorded: the status that results from its patch has [lastPhase]
    [CloneFailed] or [CloneTimeout] and neither a [virtualMachineRef] nor a
    [cloneOperationName]. *)
Theorem permanent_error_is_recorded {W} (o : oracle W) namespace gateway valid_url
    isoformat timeoutMs name st retry w :
  let out :=
    exec o (cyberdesk_create namespace gateway valid_url isoformat timeoutMs name st
              retry) ∅ w in
  res out = Raised PermanentError →
  let st' := status_after st (patch out) in
  (st' !! "lastPhase" = Some "CloneFailed"
   ∨ st' !! "lastPhase" = Some "CloneTimeout")
  ∧ st' !! "virtualMachineRef" = None
  ∧ st' !! "cloneOperationName" = None.
Proof.
  intros out Hres st'. subst st'.
  destruct (create_exec_outcome o namespace gateway valid_url isoformat timeoutMs name
              st retry ∅ w) as [Hout _].
  fold out in Hout. rewrite Hres in Hout.
  inversion Hout as [| | | | |ph Hph Hr Hp| |]; subst.
  destruct (abandoned_status_after st ph ∅) as (Hl & Hv & Hc & _).
  rewrite Hl, Hv, Hc. split; [|done].
  listed.
Qed.

(** X4.  The calls of [cyberdesk_create]: it never deletes a VM or a
    Cyberdesk and never talks to Supabase; it deletes a clone object only
    when the retry counter has reached 20, and then the one named in the
    status; it posts to the gateway only the readiness of the desktop it
    reconciles, at the configured base URL, with a timeout of 5 seconds. *)
Theorem create_calls_are_bounded {W} (o : oracle W) namespace gateway valid_url
    isoformat timeoutMs name st retry p w :
  Forall (λ r,
    match r with
    | delete_vm _ _ | delete_cyberdesk _ _
    | supabase_select_status _ | supabase_update_status _ _ => False
    | delete_clone _ c =>
        20 ≤ retry ∧ nonempty (st !! "cloneOperationName") = Some c
    | urlopen_post url timeout =>
        timeout = 5
        ∧ ∃ base, nonempty gateway = Some base
                  ∧ url = base +:+ "/cyberdesk/" +:+ name +:+ "/ready"
    | _ => True
    end)
    (calls (trace (exec o (cyberdesk_create namespace gateway valid_url isoformat
                             timeoutMs name st retry) p w))).
Proof.
  apply (create_exec_outcome o namespace gateway valid_url isoformat timeoutMs name st
           retry p w).
Qed.

(** *** Invariants of the status *)

Lemma status_invariant_preserved gateway valid_url isoformat name st r p' :
  create_outcome gateway valid_url isoformat name st ∅ r p' →
  status_invariant isoformat st →
  status_invariant isoformat (status_after st p').
Proof.
  intros Hout (Hphases & Hbound & Hclone & Htimes).
  inversion Hout as [d| | |v s e ph p1 Hph Hp|v d p1 Hv Hphase Hp Hd
                    |ph Hph|base|base]; subst.
  7, 8: done.
  - done.
  - done.
  - destruct (cloning_status_after st ("clone-for-" +:+ name) ∅)
      as (Hc & Hl & Hv & Hk).
    split_and!.
    + intros ph. rewrite Hl. intros [= <-]. listed.
    + intros ph. rewrite Hl. intros [= <-]. listed.
    + intros c. rewrite Hc, Hl, Hv. intros [= <-].
      split_and!; [done..|by eexists].
    + intros k s' Hin. rewrite Hk by listed. by apply Htimes.
  - destruct (bound_status_after st v _ _ ph _ Hp)
      as (Hv & Hs & He & Hl & Hc).
    split_and!.
    + intros ph'. rewrite Hl. intros [= <-]. listed.
    + intros _ _ _. rewrite Hv, Hs, He. by split_and!.
    + intros c. by rewrite Hc.
    + intros k s' Hin. rewrite !elem_of_cons, elem_of_nil in Hin.
      destruct Hin as [->|[->|[]]].
      * rewrite Hs. intros [= <-]. by eexists.
      * rewrite He. intros [= <-]. by eexists.
  - destruct (repatched_status_after isoformat st d _ Hp Hd)
      as (Hs & He & Hk & Ht).
    split_and!.
    + intros ph. rewrite Hk by listed. apply Hphases.
    + intros ph. rewrite (Hk "lastPhase"), (Hk "virtualMachineRef") by listed.
      intros Hl Hin. destruct (Hbound ph Hl Hin) as (? & _). by split_and!.
    + intros c.
      rewrite (Hk "cloneOperationName"), (Hk "lastPhase"),
        (Hk "virtualMachineRef") by listed.
      apply Hclone.
    + intros k s' Hin Hs'. destruct (Ht k s' Hin Hs') as [Hold|?]; [|done].
      by apply (Htimes k).
  - destruct (abandoned_status_after st ph ∅) as (Hl & Hv & Hc & Hk).
    split_and!.
    + intros ph'. rewrite Hl. intros [= <-]. listed.
    + intros ph'. rewrite Hl. intros [= <-]. listed.
    + intros c. by rewrite Hc.
    + intros k s' Hin. rewrite Hk by listed. by apply Htimes.
Qed.

Lemma reachable_status_invariant namespace gateway valid_url isoformat st :
  reachable namespace gateway valid_url isoformat st → status_invariant isoformat st.
Proof.
  induction 1 as [|st W o w timeoutMs name retry _ IH].
  - split_and!; intros; by rewrite lookup_empty in *.
  - eapply status_invariant_preserved; [|exact IH].
    apply create_exec_outcome.
Qed.

(** X5.  In every status that the reconciler can produce, a [lastPhase] of
    [AssignedFromPool] or [Cloned] comes with a [virtualMachineRef], a
    [startTime] and an [expiryTime]. *)
Theorem bound_phase_has_vm_and_times namespace gateway valid_url isoformat st phase :
  reachable namespace gateway valid_url isoformat st →
  st !! "lastPhase" = Some phase →
  phase ∈ ["AssignedFromPool"; "Cloned"] →
  is_Some (st !! "virtualMachineRef")
  ∧ is_Some (st !! "startTime")
  ∧ is_Some (st !! "expiryTime").
Proof.
  intros Hreach. by apply (reachable_status_invariant _ _ _ _ _ Hreach).
Qed.

(** X6.  In every status that the reconciler can produce, a
    [cloneOperationName] is ["clone-for-"] followed by the name of a desktop,
    and it is there only while [lastPhase] is [CloningInitiated] and there is
    no [virtualMachineRef]. *)
Theorem clone_operation_only_while_initiated namespace gateway valid_url isoformat st c :
  reachable namespace gateway valid_url isoformat st →
  st !! "cloneOperationName" = Some c →
  st !! "lastPhase" = Some "CloningInitiated"
  ∧ st !! "virtualMachineRef" = None
  ∧ ∃ instance_id, c = "clone-for-" +:+ instance_id.
Proof.
  intros Hreach. by apply (reachable_status_invariant _ _ _ _ _ Hreach).
Qed.

(** X7.  In every status that the reconciler can produce, [lastPhase] is one
    of [CloningInitiated], [AssignedFromPool], [Cloned], [CloneFailed] and
    [CloneTimeout]; the phase [Running], which the handler still accepts as
    a bound phase, is never written. *)
Theorem written_phase_is_known namespace gateway valid_url isoformat st phase :
  reachable namespace gateway valid_url isoformat st →
  st !! "lastPhase" = Some phase →
  phase ∈ ["CloningInitiated"; "AssignedFromPool"; "Cloned"; "CloneFailed";
           "CloneTimeout"]
  ∧ phase ≠ "Running".
Proof.
  intros Hreach Hl.
  pose proof (proj1 (reachable_status_invariant _ _ _ _ _ Hreach) phase Hl)
    as Hin.
  split; [done|]. intros ->. unfold written_phases in Hin. listed.
Qed.

(** ** Further paths of the reconciler *)

Section MorePaths.

Context {W : Type} (o : oracle W).
Context (namespace : string) (gateway : option string)
  (valid_url : string → bool) (isoformat : Z → string).

Local Abbreviation reconcile :=
  (cyberdesk_create namespace gateway valid_url isoformat).

(** X8.  In the cloning state, when the clone object is found with the phase
    [Failed], the handler makes no other call (the failed clone object is not
    deleted), whatever the retry counter; it writes [lastPhase = CloneFailed]
    with both references null and raises a [PermanentError]. *)
Theorem failed_clone_is_abandoned timeoutMs name st retry p w c cl w1 :
  bound_steady st = false →
  nonempty (st !! "cloneOperationName") = Some c →
  o (get_clone namespace c) w = (inr cl, w1) →
  clone_phase cl = Some "Failed" →
  let out := exec o (reconcile timeoutMs name st retry) p w in
  res out = Raised PermanentError
  ∧ calls (trace out) = [get_clone namespace c]
  ∧ patch out = <["cyberdesk_create" := abandoned_status st "CloneFailed"]> p
  ∧ world out = w1.
Proof.
  intros Hs Hc Hget Hph.
  unfold cyberdesk_create, exec. rewrite not_bound_steady by done.
  rewrite Hc. unfold check_clone_status. rewrite Hc.
  cbn. rewrite Hget. cbn. by rewrite Hph.
Qed.

(** X9.  In the cloning state, when the lookup of the clone object answers
    404, the handler creates the clone object under the name of the status,
    from the golden snapshot to a VM named as the desktop, and raises a
    [TemporaryError] with a delay of 5 seconds whether the creation succeeds
    or not; when the lookup answers another API error, it raises the same
    error without creating anything.  In both cases nothing is written, and
    the retry counter plays no part: a clone object that is missing is
    created again even after 20 retries. *)
Theorem missing_clone_is_created timeoutMs name st retry p w c e w1 :
  bound_steady st = false →
  nonempty (st !! "cloneOperationName") = Some c →
  o (get_clone namespace c) w = (inl e, w1) →
  let out := exec o (reconcile timeoutMs name st retry) p w in
  let manifest := clone_manifest c namespace name in
  res out = Raised (TemporaryError (Some 5))
  ∧ patch out = p
  ∧ calls (trace out)
    = (if bool_decide (status e = 404)
       then [get_clone namespace c; create_clone namespace manifest]
       else [get_clone namespace c])
  ∧ cb_name manifest = c
  ∧ cb_source manifest
    = {| ref_apiGroup := "snapshot.kubevirt.io";
         ref_kind := "VirtualMachineSnapshot";
         ref_name := "snapshot-golden-vm" |}
  ∧ cb_target manifest
    = {| ref_apiGroup := "kubevirt.io";
         ref_kind := "VirtualMachine";
         ref_name := name |}.
Proof.
  intros Hs Hc Hget.
  unfold cyberdesk_create, exec. rewrite not_bound_steady by done.
  rewrite Hc. unfold check_clone_status. rewrite Hc.
  cbn. rewrite Hget. cbn.
  destruct (Z.eqb_spec (status e) 404) as [E|E]; cbn.
  - rewrite bool_decide_eq_true_2 by done. answer o.
    by destruct x as [e'|cl].
  - by rewrite bool_decide_eq_false_2 by done.
Qed.

(** X10.  In the cloning state, a clone object whose phase is [Unknown] is
    waited for without a bound: whatever the retry counter, also beyond 20,
    the handler makes no other call, writes nothing and raises a
    [TemporaryError] with a delay of 5 seconds. *)
Theorem unknown_clone_never_times_out timeoutMs name st retry p w c cl w1 :
  bound_steady st = false →
  nonempty (st !! "cloneOperationName") = Some c →
  o (get_clone namespace c) w = (inr cl, w1) →
  clone_phase cl = Some "Unknown" →
  let out := exec o (reconcile timeoutMs name st retry) p w in
  res out = Raised (TemporaryError (Some 5))
  ∧ calls (trace out) = [get_clone namespace c]
  ∧ patch out = p.
Proof.
  intros Hs Hc Hget Hph.
  unfold cyberdesk_create, exec. rewrite not_bound_steady by done.
  rewrite Hc. unfold check_clone_status. rewrite Hc.
  cbn. rewrite Hget. cbn. by rewrite Hph.
Qed.

(** X11.  The reconciliation of a bound desktop whose status has both times
    is idempotent: its one call is the finalization patch of the VM of the
    status, the clock is not read, and when the patch is accepted the handler
    returns and the status that results from its patch is the status it
    started from. *)
Theorem bound_desktop_is_left_as_it_is timeoutMs name st retry w v w1 :
  nonempty (st !! "virtualMachineRef") = Some v →
  opt_in (st !! "lastPhase") ["AssignedFromPool"; "Cloned"; "Running"] = true →
  contains st "startTime" && contains st "expiryTime" = true →
  o (patch_vm namespace v (finalize_patch_body v)) w = (inr tt, w1) →
  let out := exec o (reconcile timeoutMs name st retry) ∅ w in
  res out = Returned tt
  ∧ calls (trace out) = [patch_vm namespace v (finalize_patch_body v)]
  ∧ status_after st (patch out) = st.
Proof.
  intros Hv Hph Htimes Hpatch.
  unfold cyberdesk_create, exec. rewrite Hv, Hph.
  unfold already_provisioned, _ensure_vm_patched_and_running.
  cbn. rewrite Hpatch. cbn.
  apply andb_true_iff in Htimes as [-> ->]. cbn.
  split; [done|]. split; [done|].
  unfold status_after.
  rewrite lookup_alter_eq, !lookup_delete_ne, lookup_insert_eq by done.
  cbn. apply map_eq. intros k. rewrite apply_status_patch_lookup.
  destruct (decide (k = "cloneOperationName")) as [->|Hk].
  - by rewrite lookup_delete_eq.
  - rewrite lookup_delete_ne by done. unfold spread. rewrite lookup_fmap.
    by destruct (st !! k).
Qed.

(** X12.  When the API server refuses the finalization patch, with whatever
    error, nothing is bound: for a bound desktop and for a clone that has
    succeeded alike, the handler raises a [TemporaryError] with a delay of 10
    seconds, does not read the clock and writes nothing. *)
Theorem refused_finalization_is_retried timeoutMs name st retry p w :
  (∀ v e w1,
     nonempty (st !! "virtualMachineRef") = Some v →
     opt_in (st !! "lastPhase") ["AssignedFromPool"; "Cloned"; "Running"]
     = true →
     o (patch_vm namespace v (finalize_patch_body v)) w = (inl e, w1) →
     let out := exec o (reconcile timeoutMs name st retry) p w in
     res out = Raised (TemporaryError (Some 10))
     ∧ calls (trace out) = [patch_vm namespace v (finalize_patch_body v)]
     ∧ patch out = p)
  ∧ (∀ c cl w1 e w2,
       bound_steady st = false →
       nonempty (st !! "cloneOperationName") = Some c →
       o (get_clone namespace c) w = (inr cl, w1) →
       clone_phase cl = Some "Succeeded" →
       o (patch_vm namespace name (finalize_patch_body name)) w1
         = (inl e, w2) →
       let out := exec o (reconcile timeoutMs name st retry) p w in
       res out = Raised (TemporaryError (Some 10))
       ∧ calls (trace out)
         = [get_clone namespace c;
            patch_vm namespace name (finalize_patch_body name)]
       ∧ patch out = p).
Proof.
  split.
  - intros v e w1 Hv Hph Hpatch.
    unfold cyberdesk_create, exec. rewrite Hv, Hph.
    unfold already_provisioned, _ensure_vm_patched_and_running.
    cbn. by rewrite Hpatch.
  - intros c cl w1 e w2 Hs Hc Hget Hph Hpatch.
    unfold cyberdesk_create, exec. rewrite not_bound_steady by done.
    rewrite Hc. unfold check_clone_status. rewrite Hc.
    cbn. rewrite Hget. cbn. rewrite Hph.
    unfold _ensure_vm_patched_and_running. cbn. by rewrite Hpatch.
Qed.

(** X13.  The readiness gate of the pool path.  After a VM has been claimed
    from the pool and labelled for the desktop, when its VMI is not found,
    or is not [Running], or has no address on its first interface, or cannot
    be read, the handler raises a [TemporaryError] (with a delay of 10
    seconds for an API error other than 404, with kopf's default delay
    otherwise) without notifying the gateway or reading the clock, and
    without writing anything into the status: the claim and the labels stay
    on the VM, the status does not name it. *)
Theorem pool_vm_not_ready_is_not_recorded timeoutMs name st retry p w v cur
    w2 w3 x w4 :
  nonempty (st !! "virtualMachineRef") = None →
  nonempty (st !! "cloneOperationName") = None →
  let pool := exec o (get_free_vm_from_pool namespace) p w in
  res pool = Returned (Some v) →
  o (get_vm namespace v) (world pool) = (inr cur, w2) →
  let body :=
    {| vp_ownerReferences_null := false;
       vp_labels :=
         Some (list_to_map [("app", "cyberdesk");
                            ("cyberdesk-instance", name);
                            ("managed-by", MANAGED_BY)]
               ∪ vm_labels cur);
       vp_runStrategy := None;
       vp_template_labels :=
         Some (list_to_map [("app", "cyberdesk");
                            ("cyberdesk-instance", name);
                            ("managed-by", MANAGED_BY);
                            ("kubevirt.io/domain", name)]
               ∪ vm_template_labels cur);
       vp_hostname := None |} in
  o (patch_vm namespace v body) w2 = (inr tt, w3) →
  o (get_vmi namespace v) w3 = (x, w4) →
  match x with
  | inr i =>
      truthy (hd None (vmi_interfaces i)) && opt_eqb (vmi_phase i) "Running"
  | inl _ => false
  end = false →
  let out := exec o (reconcile timeoutMs name st retry) p w in
  res out
  = Raised (TemporaryError
              match x with
              | inl e => if bool_decide (status e = 404) then None else Some 10
              | inr _ => None
              end)
  ∧ patch out = p
  ∧ calls (trace out)
    = (calls (trace pool)
       ++ [get_vm namespace v; patch_vm namespace v body;
           get_vmi namespace v])%list.
Proof.
  intros Hv Hc pool Hpool Hget body Hpatch Hvmi Hready.
  subst pool.
  destruct (pool_exec o namespace p w) as (r & w' & tr & Hrun & Hexec & _).
  rewrite Hexec in Hpool, Hget |- *. cbn in Hpool, Hget. subst r.
  assert (Hne : nonempty (Some v) = Some v).
  { destruct (get_free_vm_from_pool_run o namespace p w)
      as (r' & w'' & tr' & Hrun' & [?|(y & ? & Hy)] & _);
      rewrite Hrun in Hrun'; by simplify_eq. }
  unfold cyberdesk_create, exec. rewrite Hv, Hc.
  cbn -[get_free_vm_from_pool nonempty]. rewrite run_bind, Hrun. rewrite Hne.
  unfold bind_pool_vm. cbn. rewrite Hget. cbn.
  subst body. cbn in Hpatch. rewrite Hpatch. cbn. rewrite Hvmi.
  destruct x as [e|i]; cbn.
  - destruct (Z.eqb_spec (status e) 404) as [E|E]; cbn.
    + rewrite bool_decide_eq_true_2 by done. by rewrite calls_app.
    + rewrite bool_decide_eq_false_2 by done. by rewrite calls_app.
  - destruct (vmi_interfaces i) as [|ip ips]; cbn in Hready |- *.
    + by rewrite calls_app.
    + apply andb_false_iff in Hready as [->| ->]; cbn.
      * by rewrite calls_app.
      * rewrite orb_true_r. cbn. by rewrite calls_app.
Qed.

End MorePaths.

(** ** More on the pool claimer *)

Section MorePool.

Context {W : Type} (o : oracle W) (namespace : string).

Lemma eligible_spec v :
  eligible v = true →
  ∃ n, nonempty (vm_name v) = Some n
       ∧ vm_name v = Some n
       ∧ opt_eqb (vm_labels v !! "pool.kubevirt.io/in-use") "true" = false
       ∧ opt_eqb (vm_printableStatus v) "Running" = true.
Proof.
  unfold eligible, truthy.
  intros [[Hn Hu%negb_true_iff]%andb_true_iff Hr]%andb_true_iff.
  destruct (nonempty (vm_name v)) as [n|] eqn:E; [|done].
  exists n. by destruct (nonempty_Some _ _ E).
Qed.

Lemma claim_first_skips v items p w :
  eligible v = false →
  run o (claim_first namespace (v :: items) p) w
  = let '(a, w', tr) := run o (claim_first namespace items p) w in
    (a, w', Logged (if truthy (vm_name v) then DEBUG else WARNING) :: tr).
Proof.
  unfold eligible, truthy. cbn.
  destruct (nonempty (vm_name v)) as [n|]; cbn; [|done].
  destruct (opt_eqb (vm_labels v !! _) "true"); cbn; [done|].
  by intros ->.
Qed.

(** X14.  The pool claimer tries the candidates of the list (named, not in
    use, running) in the order of the list, each at most once, and nothing
    else: when it returns no VM, its calls after the list call are the claim
    patches of all the candidates; when it returns a name, they are the
    claim patches of the candidates up to one that bears that name, on which
    it stops.  It never raises in the loop and never touches the status. *)
Theorem pool_claimer_tries_candidates_in_order vms p w w1 :
  o (list_vm namespace "pool.kubevirt.io/warm=ready") w = (inr vms, w1) →
  let out := exec o (get_free_vm_from_pool namespace) p w in
  let candidates := filter (λ v, eligible v = true) vms in
  patch out = p
  ∧ match res out with
    | Returned None =>
        calls (trace out)
        = list_vm namespace "pool.kubevirt.io/warm=ready"
          :: (claim_of namespace <$> candidates)
    | Returned (Some n) =>
        ∃ pre v post,
          candidates = (pre ++ v :: post)%list
          ∧ vm_name v = Some n ∧ n ≠ ""
          ∧ calls (trace out)
            = list_vm namespace "pool.kubevirt.io/warm=ready"
              :: (claim_of namespace <$> (pre ++ [v])%list)
    | Raised _ => False
    end.
Proof.
  intros Hlist. unfold get_free_vm_from_pool, exec. cbn. rewrite Hlist.
  clear Hlist w.
  assert (H : ∃ x w' tr,
    run o (claim_first namespace vms p) w1 = ((Returned x, p), w', tr)
    ∧ match x with
      | None =>
          calls tr = claim_of namespace <$> filter (λ v, eligible v = true) vms
      | Some n =>
          ∃ pre v post,
            filter (λ v, eligible v = true) vms = (pre ++ v :: post)%list
            ∧ vm_name v = Some n ∧ n ≠ ""
            ∧ calls tr = claim_of namespace <$> (pre ++ [v])%list
      end).
  { revert w1. induction vms as [|v items IH]; intros w.
    { by eexists None, w, _. }
    destruct (eligible v) eqn:Hel.
    - destruct (eligible_spec v Hel) as (n & Hn & Hname & Huse & Hrun).
      assert (Hclaim : claim_of namespace v
        = patch_vm namespace n (claim_patch_body (vm_labels v))).
      { unfold claim_of. by rewrite Hname. }
      rewrite filter_cons_True by done.
      cbn -[claim_of]. rewrite Hn, Huse, Hrun. cbn -[claim_of].
      answer o. destruct x as [e|[]]; cbn -[claim_of].
      + destruct (IH w0) as (x & w' & tr & -> & Hx).
        eexists x, w', _. split; [done|]. destruct x as [m|].
        * destruct Hx as (pre & v' & post & Hf & ? & ? & Hcalls).
          exists (v :: pre), v', post. cbn -[claim_of].
          rewrite Hf, Hcalls, Hclaim. by split_and!.
        * cbn -[claim_of]. by rewrite Hx, Hclaim.
      + eexists (Some n), w0, _. split; [done|].
        exists [], v, (filter (λ v, eligible v = true) items).
        cbn -[claim_of]. rewrite Hclaim.
        split_and!; [done..| |done]. by destruct (nonempty_Some _ _ Hn).
    - rewrite filter_cons_False by (by rewrite Hel).
      rewrite claim_first_skips by done.
      destruct (IH w) as (x & w' & tr & -> & Hx).
      by eexists x, w', _. }
  destruct H as (x & w' & tr & -> & Hx). cbn. split; [done|].
  destruct x as [n|].
  - destruct Hx as (pre & v & post & ? & ? & ? & ->). by exists pre, v, post.
  - by rewrite Hx.
Qed.

(** X15.  The claim patch, applied as a merge patch to the VM as it is at
    that moment, marks it claimed and in use, removes its owner references
    and leaves its run strategy, template and hostname alone.  Since the body
    carries all the labels that the list call returned, those labels win over
    the current ones: a label of the VM under another key survives only with
    the value listed, or, when it was not listed, with its current value. *)
Theorem claim_patch_effect (listed : gmap string string) (current : vm) :
  let claimed := apply_vm_patch current (claim_patch_body listed) in
  vm_labels claimed !! "pool.kubevirt.io/warm" = Some "claimed"
  ∧ vm_labels claimed !! "pool.kubevirt.io/in-use" = Some "true"
  ∧ (∀ k, k ≠ "pool.kubevirt.io/warm" → k ≠ "pool.kubevirt.io/in-use" →
          vm_labels claimed !! k
          = match listed !! k with
            | Some x => Some x
            | None => vm_labels current !! k
            end)
  ∧ vm_ownerReferences claimed = []
  ∧ vm_runStrategy claimed = vm_runStrategy current
  ∧ vm_template_labels claimed = vm_template_labels current
  ∧ vm_hostname claimed = vm_hostname current
  ∧ vm_name claimed = vm_name current.
Proof.
  cbn. split_and!; try done.
  - apply lookup_union_Some_l. apply lookup_insert_eq.
  - apply lookup_union_Some_l. rewrite lookup_insert_ne by done.
    apply lookup_insert_eq.
  - intros k H1 H2. rewrite lookup_union.
    rewrite !lookup_insert_ne by done.
    by destruct (listed !! k), (vm_labels current !! k).
Qed.

End MorePool.

(** ** The watchers *)

Lemma opt_eqb_true x s : opt_eqb x s = true ↔ x = Some s.
Proof.
  destruct x as [s'|]; cbn; [|done].
  rewrite String.eqb_eq. split; [by intros ->|by intros [= ->]].
Qed.

Lemma opt_eqb_false x s : opt_eqb x s = false ↔ x ≠ Some s.
Proof.
  rewrite <- opt_eqb_true. by destruct (opt_eqb x s).
Qed.

Section Watchers.

Context {W : Type} (o : oracle W).

(** X16.  The synchronizer acts only on a VMI that belongs to a desktop: when
    there is no new phase, or the label [app] is not [cyberdesk], or the
    label [cyberdesk-instance] is missing or empty, it returns without any
    call, be the VMI a member of the pool or not. *)
Theorem sync_ignores_unbound_vmis old new (labels : gmap string string) p w :
  new = None
  ∨ labels !! "app" ≠ Some "cyberdesk"
  ∨ nonempty (labels !! "cyberdesk-instance") = None →
  let out := exec o (vmi_phase_change old new labels) p w in
  res out = Returned tt ∧ calls (trace out) = [] ∧ patch out = p.
Proof.
  intros H. unfold vmi_phase_change, exec.
  destruct new as [phase|]; [|done].
  destruct (opt_eqb (labels !! "app") "cyberdesk") eqn:Happ; cbn; [|done].
  apply opt_eqb_true in Happ.
  destruct H as [?|[?| ->]]; [done..|].
  by destruct (_ || _).
Qed.

(** X17.  For a VMI that belongs to a desktop, the synchronizer reads the row
    of the desktop and writes it only on a mismatch: when the row holds the
    value that the phase maps to, there is no write; when it holds another
    value, or there is no row, or the read fails, there is one write, of that
    value.  The handler returns in every case, also when Supabase fails on
    the read or on the write. *)
Theorem sync_writes_only_on_mismatch old phase (labels : gmap string string)
    id answer w1 p w :
  labels !! "app" = Some "cyberdesk" →
  nonempty (labels !! "cyberdesk-instance") = Some id →
  o (supabase_select_status id) w = (answer, w1) →
  let out := exec o (vmi_phase_change old (Some phase) labels) p w in
  let desired := SupabaseInstanceStatus_value (target_status phase) in
  let current := answer ≫= head in
  res out = Returned tt
  ∧ patch out = p
  ∧ calls (trace out)
    = supabase_select_status id
      :: (if bool_decide (current = Some desired) then []
          else [supabase_update_status id desired]).
Proof.
  intros Happ Hid Hsel. unfold vmi_phase_change, exec.
  apply opt_eqb_true in Happ. rewrite Happ, Hid. cbn.
  unfold target_status, update_instance_status.
  destruct (KubeVirtVMIPhase_of_value phase) as [ph|]; cbn; rewrite Hsel;
    destruct answer as [[|cur rows]|]; cbn.
  all: try (rewrite bool_decide_eq_false_2 by done; answer o;
            by destruct x).
  all: match goal with
       | |- context [String.eqb ?c ?s] =>
           destruct (String.eqb_spec c s) as [->|E]
       end; cbn.
  all: try (rewrite bool_decide_eq_true_2 by done; done).
  all: rewrite bool_decide_eq_false_2 by congruence.
  all: answer o; by destruct x.
Qed.

(** X18.  No handler of the operator sets a row of Supabase to [running]:
    the synchronizer writes only [pending], [terminated] or [error], and the
    readiness notifier, the reconciler, the deleter and the timer do not
    write to Supabase at all. *)
Theorem no_handler_writes_running namespace gateway valid_url isoformat fromisoformat :
  (∀ id phase p w,
     Forall not_running
       (calls (trace (exec o (update_instance_status id phase) p w))))
  ∧ (∀ old new labels p w,
       Forall not_running
         (calls (trace (exec o (vmi_phase_change old new labels) p w))))
  ∧ (∀ old new labels p w,
       Forall not_running
         (calls (trace (exec o (vmi_ready_watcher gateway valid_url old new
                                  labels) p w))))
  ∧ (∀ timeoutMs name st retry p w,
       Forall not_running
         (calls (trace (exec o (cyberdesk_create namespace gateway valid_url isoformat
                                  timeoutMs name st retry) p w))))
  ∧ (∀ name st p w,
       Forall not_running
         (calls (trace (exec o (cyberdesk_delete namespace name st) p w))))
  ∧ (∀ name ns st p w,
       Forall not_running
         (calls (trace (exec o (cyberdesk_timeout_check fromisoformat name ns
                                  st) p w)))).
Proof.
  assert (Hupdate : ∀ id phase p w,
    Forall not_running
      (calls (trace (exec o (update_instance_status id phase) p w)))).
  { intros id phase p w. unfold update_instance_status, exec.
    destruct (KubeVirtVMIPhase_of_value phase) as [[]|]; cbn;
      answer o; destruct x; by repeat constructor. }
  split_and!.
  - done.
  - intros old new labels p w. unfold vmi_phase_change, exec.
    destruct new as [phase|]; [|by constructor].
    destruct (negb _); [by constructor|].
    destruct (nonempty _) as [id|]; [|destruct (_ || _); by constructor].
    unfold update_instance_status.
    destruct (KubeVirtVMIPhase_of_value phase) as [[]|]; cbn; answer o;
      destruct x; cbn;
      repeat match goal with
             | |- context [if ?b then _ else _] => destruct b; cbn
             end;
      try answer o; try destruct x; by repeat constructor.
  - intros old new labels p w. unfold vmi_ready_watcher, notify_gateway, exec.
    destruct (nonempty_list new); [by constructor|].
    destruct (negb _); [by constructor|].
    destruct (nonempty (labels !! _)); [|by constructor].
    destruct (find _ _); [|by constructor].
    destruct (_ && _); [|by constructor].
    destruct (nonempty gateway); cbn; [|by constructor].
    destruct (valid_url _); cbn; [|by constructor].
    answer o. destruct x; by repeat constructor.
  - intros timeoutMs name st retry p w.
    eapply Forall_impl;
      [apply (create_exec_outcome o namespace gateway valid_url isoformat)|].
    by intros [].
  - intros name st p w. unfold cyberdesk_delete, exec.
    destruct (nonempty (st !! "virtualMachineRef")); cbn.
    + answer o. destruct x as [e|[]]; cbn; [|by repeat constructor].
      destruct (negb _); by repeat constructor.
    + destruct (nonempty (st !! "cloneOperationName")); cbn;
        [|by constructor].
      answer o. destruct x as [e|[]]; cbn; [|by repeat constructor].
      destruct (negb _); by repeat constructor.
  - intros name ns st p w. unfold cyberdesk_timeout_check, exec.
    destruct (nonempty (st !! "expiryTime")) as [s|]; [|by constructor].
    destruct (fromisoformat s); cbn; [by constructor| |].
    + answer o. by repeat constructor.
    + answer o. destruct (_ >=? _); cbn; [|by repeat constructor].
      answer o. destruct x0 as [e|[]]; by repeat constructor.
Qed.

(** The first element that satisfies a test. *)
Lemma find_first {A} (f : A → bool) pre c post :
  Forall (λ x, f x = false) pre → f c = true →
  find f (pre ++ c :: post) = Some c.
Proof.
  induction 1 as [|x pre Hx _ IH]; intros Hc; cbn.
  - by rewrite Hc.
  - rewrite Hx. by apply IH.
Qed.

Lemma existsb_ready_true (conds : list condition) :
  existsb (λ c, opt_eqb (cond_type c) "Ready"
                && opt_eqb (cond_status c) "True") conds = true
  ↔ ∃ c, c ∈ conds ∧ ready_true c.
Proof.
  rewrite existsb_exists. unfold ready_true. split.
  - intros (c & Hin & [Ht Hs]%andb_true_iff).
    exists c. rewrite list_elem_of_In. by rewrite <- !opt_eqb_true.
  - intros (c & Hin & Ht & Hs). exists c.
    rewrite <- list_elem_of_In. split; [done|].
    apply andb_true_iff. by rewrite !opt_eqb_true.
Qed.

(** X19.  The readiness notifier.  It always returns, and its calls are
    either none or one POST, with a timeout of 10 seconds, to the [ready]
    endpoint of the desktop named by the label [cyberdesk-instance], at the
    configured base URL, which then has a type.  It does not notify when the
    old conditions already had [Ready] with status [True], nor when the new
    conditions have no [Ready] with status [True], nor when the URL has no
    type: [Request] raises before anything is sent, and the exception is
    logged.  It does notify, whatever [urlopen] then does, when the VMI
    belongs to a desktop, the gateway is configured with a URL that has a
    type, the first [Ready] condition of the new conditions has status
    [True] and the old conditions have no [Ready] with status [True]. *)
Theorem ready_notification_on_transition gateway valid_url old new
    (labels : gmap string string) p w :
  let out := exec o (vmi_ready_watcher gateway valid_url old new labels) p w in
  res out = Returned tt
  ∧ patch out = p
  ∧ (calls (trace out) = []
     ∨ ∃ id base,
         labels !! "app" = Some "cyberdesk"
         ∧ nonempty (labels !! "cyberdesk-instance") = Some id
         ∧ nonempty gateway = Some base
         ∧ valid_url (base +:+ "/cyberdesk/" +:+ id +:+ "/ready") = true
         ∧ calls (trace out)
           = [urlopen_post (base +:+ "/cyberdesk/" +:+ id +:+ "/ready") 10])
  ∧ ((∃ c, c ∈ nonempty_list old ∧ ready_true c) → calls (trace out) = [])
  ∧ ((∀ c, c ∈ nonempty_list new → ¬ ready_true c) → calls (trace out) = [])
  ∧ (∀ id base,
       nonempty (labels !! "cyberdesk-instance") = Some id →
       nonempty gateway = Some base →
       valid_url (base +:+ "/cyberdesk/" +:+ id +:+ "/ready") = false →
       calls (trace out) = [])
  ∧ (∀ id base pre c post,
       labels !! "app" = Some "cyberdesk" →
       nonempty (labels !! "cyberdesk-instance") = Some id →
       nonempty gateway = Some base →
       valid_url (base +:+ "/cyberdesk/" +:+ id +:+ "/ready") = true →
       nonempty_list new = (pre ++ c :: post)%list →
       Forall (λ c', cond_type c' ≠ Some "Ready") pre →
       ready_true c →
       (∀ c', c' ∈ nonempty_list old → ¬ ready_true c') →
       calls (trace out)
       = [urlopen_post (base +:+ "/cyberdesk/" +:+ id +:+ "/ready") 10]).
Proof.
  unfold vmi_ready_watcher, notify_gateway, exec.
  assert (Hfires : ∀ pre c post,
    nonempty_list new = (pre ++ c :: post)%list →
    Forall (λ c', cond_type c' ≠ Some "Ready") pre →
    ready_true c →
    find (λ c, opt_eqb (cond_type c) "Ready") (nonempty_list new) = Some c).
  { intros pre c post -> Hpre [Ht _]. apply find_first.
    - eapply Forall_impl; [exact Hpre|]. intros c' Hc'.
      by apply opt_eqb_false.
    - by apply opt_eqb_true. }
  assert (Hold : ∀ b,
    existsb (λ c, opt_eqb (cond_type c) "Ready"
                  && opt_eqb (cond_status c) "True") (nonempty_list old) = b →
    if b then ∃ c, c ∈ nonempty_list old ∧ ready_true c
    else ∀ c, c ∈ nonempty_list old → ¬ ready_true c).
  { intros [] Hb.
    - by apply existsb_ready_true.
    - intros c Hin Hc. apply not_true_iff_false in Hb. apply Hb.
      apply existsb_ready_true. by exists c. }
  destruct (nonempty_list new) as [|c0 conds] eqn:Hnew.
  { cbn; split_and!; [done|done|by left|done|done|done|].
    intros id base pre c post _ _ _ _ Heq. by destruct pre; cbn in Heq. }
  destruct (opt_eqb (labels !! "app") "cyberdesk") eqn:Happ; cbn -[find].
  2:{ apply opt_eqb_false in Happ.
      cbn; split_and!; [done|done|by left|done|done|done|]. by intros. }
  apply opt_eqb_true in Happ.
  destruct (nonempty (labels !! "cyberdesk-instance")) as [id|] eqn:Hid.
  2:{ cbn; split_and!; [done|done|by left|done|done|done|]. by intros. }
  destruct (find _ (c0 :: conds)) as [rc|] eqn:Hfind.
  2:{ cbn; split_and!; [done|done|by left|done|done|done|].
      intros id' base pre c post _ _ _ _ Heq Hpre Hc _.
      discriminate (Hfires pre c post Heq Hpre Hc). }
  destruct (find_some _ _ Hfind) as [Hin%list_elem_of_In Hty%opt_eqb_true].
  destruct (opt_eqb (cond_status rc) "True") eqn:Hst; cbn.
  2:{ apply opt_eqb_false in Hst.
      cbn; split_and!; [done|done|by left|done|done|done|].
      intros id' base pre c post _ _ _ _ Heq Hpre Hc _.
      injection (Hfires pre c post Heq Hpre Hc) as ->. by destruct Hc. }
  apply opt_eqb_true in Hst.
  destruct (existsb _ (nonempty_list old)) eqn:Hex; cbn;
    pose proof (Hold _ eq_refl) as Hwas; cbn in Hwas.
  { cbn; split_and!; [done|done|by left|done|done|done|].
    intros id' base pre c post _ _ _ _ _ _ _ Hnot.
    destruct Hwas as (c' & ? & ?). by destruct (Hnot c'). }
  destruct (nonempty gateway) as [base|] eqn:Hgw; cbn.
  2:{ cbn; split_and!; [done|done|by left|done|done|done|]. by intros. }
  destruct (valid_url (base +:+ "/cyberdesk/" +:+ id +:+ "/ready"))
    eqn:Hurl; cbn.
  2:{ split_and!; [done|done|by left|done|done|done|].
      intros id' base' pre c post _ [= <-] [= <-] Hvalid.
      by rewrite Hurl in Hvalid. }
  answer o.
  assert (Hcalls : ∀ t : list action,
    calls (Logged INFO :: Logged INFO
           :: Called (urlopen_post
                        (base +:+ "/cyberdesk/" +:+ id +:+ "/ready") 10)
           :: t)
    = urlopen_post (base +:+ "/cyberdesk/" +:+ id +:+ "/ready") 10
      :: calls t) by done.
  destruct x as [code| |]; cbn -[calls String.append].
  all: split_and!; [done|done| | | | |].
  all: try (right; by exists id, base).
  all: try (intros (c' & ? & ?); by destruct (Hwas c')).
  all: try (intros Hnone; by destruct (Hnone rc)).
  all: try (intros id' base' [= <-] [= <-] Hbad; by rewrite Hurl in Hbad).
  all: by intros id' base' pre c post _ [= <-] [= <-] _ _ _ _ _.
Qed.

End Watchers.

(** ** The reconciler together with the deleter and the timer *)

Lemma decimal_fromisoformat_isoformat t :
  decimal_fromisoformat (decimal_isoformat t) = Aware t.
Proof.
  unfold decimal_fromisoformat, decimal_isoformat.
  assert (Hne : NilEmpty.string_of_int (Z.to_int t) ≠ "").
  { intros E.
    pose proof (NilEmpty.isi (Z.to_int t)) as H. rewrite E in H.
    cbn in H. injection H as H.
    pose proof (DecimalZ.of_to t) as Ht. rewrite <- H in Ht. cbn in Ht.
    subst t. discriminate H. }
  destruct (String.eqb_spec (NilEmpty.string_of_int (Z.to_int t)) "");
    [done|].
  by rewrite NilEmpty.isi, DecimalZ.of_to.
Qed.

Lemma decimal_isoformat_nonempty t : decimal_isoformat t ≠ "".
Proof.
  intros E. pose proof (decimal_fromisoformat_isoformat t) as H.
  by rewrite E in H.
Qed.

Section Lifecycle.

Context {W : Type} (o : oracle W).

(** X20.  The deletion of a desktop that the reconciler left in the cloning
    state: for every status that the reconciler can produce and that names a
    clone operation, the deleter issues one call, the deletion of that clone
    object, and returns whatever the API server answers.  It does not delete
    a VM: the target VM of the clone, which bears the name of the desktop,
    is left to the cluster. *)
Theorem delete_while_cloning_leaves_the_vm namespace gateway valid_url isoformat st c
    name p w :
  reachable namespace gateway valid_url isoformat st →
  st !! "cloneOperationName" = Some c →
  let out := exec o (cyberdesk_delete namespace name st) p w in
  res out = Returned tt
  ∧ calls (trace out) = [delete_clone namespace c]
  ∧ patch out = p.
Proof.
  intros Hreach Hc.
  destruct (reachable_status_invariant _ _ _ _ _ Hreach) as (_ & _ & Hclone & _).
  destruct (Hclone c Hc) as (_ & Hv & desk & ->).
  assert (Hn : nonempty (Some ("clone-for-" +:+ desk))
               = Some ("clone-for-" +:+ desk)) by reflexivity.
  unfold cyberdesk_delete, exec. rewrite Hv, Hc, Hn. cbn.
  answer o. destruct x as [e|[]]; cbn; [|done].
  by destruct (negb _).
Qed.

(** X21.  The timer understands what the reconciler wrote.  Let
    [fromisoformat] read back every date that [isoformat] writes, as an
    aware date, and let no date be written as the empty string.  Then for
    every status that the reconciler can produce, the timer never fails on
    the expiry: without an [expiryTime] it makes no call; with one, the
    [expiryTime] is a date [t] written by the reconciler, the timer reads
    the clock once and deletes the Cyberdesk exactly when the clock has
    reached [t]; it returns, or raises a [TemporaryError] with a delay of 30
    seconds when that deletion is refused. *)
Theorem timer_reads_what_the_reconciler_wrote namespace gateway valid_url isoformat
    fromisoformat st name ns p w :
  (∀ t, fromisoformat (isoformat t) = Aware t) →
  (∀ t, isoformat t ≠ "") →
  reachable namespace gateway valid_url isoformat st →
  let out := exec o (cyberdesk_timeout_check fromisoformat name ns st) p w in
  patch out = p
  ∧ match st !! "expiryTime" with
    | None => res out = Returned tt ∧ calls (trace out) = []
    | Some s =>
        ∃ t, s = isoformat t
             ∧ let now := (o datetime_now w).1 in
               calls (trace out)
               = datetime_now
                 :: (if bool_decide (t ≤ now) then [delete_cyberdesk ns name]
                     else [])
               ∧ (res out = Returned tt
                  ∨ t ≤ now
                    ∧ res out = Raised (TemporaryError (Some 30)))
    end.
Proof.
  intros Hrt Hne Hreach.
  destruct (reachable_status_invariant _ _ _ _ _ Hreach) as (_ & _ & _ & Htimes).
  unfold cyberdesk_timeout_check, exec.
  destruct (st !! "expiryTime") as [s|] eqn:Hs; [|done].
  destruct (Htimes "expiryTime" s ltac:(listed) Hs) as [t ->].
  assert (Hn : nonempty (Some (isoformat t)) = Some (isoformat t)).
  { cbn. by destruct (String.eqb_spec (isoformat t) ""); [destruct (Hne t)|]. }
  rewrite Hn, Hrt. cbn -[bool_decide].
  destruct (o datetime_now w) as [now w1] eqn:Hnow. cbn -[bool_decide].
  destruct (Z.geb_spec now t) as [Hge|Hlt]; cbn -[bool_decide].
  - answer o.
    destruct x as [e|[]]; cbn -[bool_decide];
      (split; [done|]); exists t; rewrite bool_decide_eq_true_2 by lia;
      (split_and!; [done|done|]).
    + right. split; [lia|done].
    + by left.
  - split; [done|]. exists t. rewrite bool_decide_eq_false_2 by lia.
    split_and!; [done..|]. by left.
Qed.

End Lifecycle.

(** ** The further properties on the example cluster *)

Lemma create_returns_witness :
  is_Some (status_after ∅ (patch (reconcile_desk_1 ∅ cluster_with_pool))
             !! "virtualMachineRef").
Proof.
  refine (proj1 (create_returns_only_when_bound api_server "kubevirt" None valid_url
                   isoformat (Some 600000) "desk-1" ∅ 0 cluster_with_pool _)).
  reflexivity.
Defined.

Lemma permanent_error_witness :
  status_after cloning_desk
    (patch (exec api_server
              (cyberdesk_create "kubevirt" None valid_url isoformat None "desk-2"
                 cloning_desk 20)
              ∅ (cluster_with_clone (Some "SnapshotInProgress"))))
    !! "cloneOperationName" = None.
Proof.
  refine (proj2 (proj2 (permanent_error_is_recorded api_server "kubevirt" None valid_url
                          isoformat None "desk-2" cloning_desk 20
                          (cluster_with_clone (Some "SnapshotInProgress")) _))).
  reflexivity.
Defined.

Lemma bound_phase_witness :
  is_Some (status_after ∅ (patch (reconcile_desk_1 ∅ cluster_with_pool))
             !! "expiryTime").
Proof.
  refine (proj2 (proj2 (bound_phase_has_vm_and_times "kubevirt" None valid_url isoformat
                          _ "AssignedFromPool" _ _ _))).
  - apply reachable_reconciled, reachable_new.
  - reflexivity.
  - apply list_elem_of_here.
Defined.

Lemma clone_operation_witness :
  status_after ∅ (patch (reconcile_desk_1 ∅ empty_cluster))
    !! "virtualMachineRef" = None.
Proof.
  refine (proj1 (proj2 (clone_operation_only_while_initiated "kubevirt" None valid_url
                          isoformat _ "clone-for-desk-1" _ _))).
  - apply reachable_reconciled, reachable_new.
  - reflexivity.
Defined.

Lemma written_phase_witness :
  "CloningInitiated"
  ∈ ["CloningInitiated"; "AssignedFromPool"; "Cloned"; "CloneFailed";
     "CloneTimeout"]
  ∧ "CloningInitiated" ≠ "Running".
Proof.
  refine (written_phase_is_known "kubevirt" None valid_url isoformat
            (status_after ∅ (patch (reconcile_desk_1 ∅ empty_cluster)))
            "CloningInitiated" _ _).
  - apply reachable_reconciled, reachable_new.
  - reflexivity.
Defined.

Lemma failed_clone_witness :
  res (exec api_server
         (cyberdesk_create "kubevirt" None valid_url isoformat None "desk-2"
            cloning_desk 0)
         ∅ (cluster_with_clone (Some "Failed")))
  = Raised PermanentError.
Proof.
  refine (proj1 (failed_clone_is_abandoned api_server "kubevirt" None valid_url
                   isoformat None "desk-2" cloning_desk 0 ∅
                   (cluster_with_clone (Some "Failed")) "clone-for-desk-2"
                   {| clone_phase := Some "Failed" |} _ _ _ _ _));
    reflexivity.
Defined.

Lemma missing_clone_witness :
  res (exec api_server
         (cyberdesk_create "kubevirt" None valid_url isoformat None "desk-2"
            cloning_desk 25)
         ∅ empty_cluster)
  = Raised (TemporaryError (Some 5)).
Proof.
  refine (proj1 (missing_clone_is_created api_server "kubevirt" None valid_url
                   isoformat None "desk-2" cloning_desk 25 ∅ empty_cluster
                   "clone-for-desk-2" not_found _ _ _ _));
    reflexivity.
Defined.

Lemma unknown_clone_witness :
  res (exec api_server
         (cyberdesk_create "kubevirt" None valid_url isoformat None "desk-2"
            cloning_desk 25)
         ∅ (cluster_with_clone (Some "Unknown")))
  = Raised (TemporaryError (Some 5)).
Proof.
  refine (proj1 (unknown_clone_never_times_out api_server "kubevirt" None valid_url
                   isoformat None "desk-2" cloning_desk 25 ∅
                   (cluster_with_clone (Some "Unknown")) "clone-for-desk-2"
                   {| clone_phase := Some "Unknown" |} _ _ _ _ _));
    reflexivity.
Defined.

Lemma bound_desktop_witness :
  res (exec api_server
         (cyberdesk_create "kubevirt" None valid_url isoformat None "desk-2"
            bound_desk 0)
         ∅ (cluster_with_clone None))
  = Returned tt.
Proof.
  refine (proj1 (bound_desktop_is_left_as_it_is api_server "kubevirt" None valid_url
                   isoformat None "desk-2" bound_desk 0
                   (cluster_with_clone None) "desk-2" _ _ _ _ _));
    reflexivity.
Defined.

Lemma refused_finalization_witness :
  res (exec (refusing conflict)
         (cyberdesk_create "kubevirt" None valid_url isoformat None "desk-2"
            cloned_desk_without_times 0)
         ∅ tt)
  = Raised (TemporaryError (Some 10)).
Proof.
  refine (proj1 (proj1 (refused_finalization_is_retried (refusing conflict)
                          "kubevirt" None valid_url isoformat None "desk-2"
                          cloned_desk_without_times 0 ∅ tt)
                   "desk-2" conflict tt _ _ _));
    reflexivity.
Defined.

Lemma pool_vm_not_ready_witness :
  res (exec api_server
         (cyberdesk_create "kubevirt" None valid_url isoformat None "desk-1" ∅ 0)
         ∅ cluster_with_cold_pool)
  = Raised (TemporaryError None).
Proof.
  refine (proj1 (pool_vm_not_ready_is_not_recorded api_server "kubevirt" None valid_url
                   isoformat None "desk-1" ∅ 0 ∅ cluster_with_cold_pool
                   "vm-a" _ _ _ (inl not_found) _ _ _ _ _ _ _ _));
    reflexivity.
Defined.

Lemma pool_claimer_witness :
  patch (exec api_server (get_free_vm_from_pool "kubevirt") ∅
           cluster_with_pool) = ∅.
Proof.
  refine (proj1 (pool_claimer_tries_candidates_in_order api_server "kubevirt"
                   _ ∅ cluster_with_pool _ _)).
  reflexivity.
Defined.

Lemma claim_patch_witness :
  vm_labels (apply_vm_patch warm_vm (claim_patch_body (vm_labels warm_vm)))
    !! "app"
  = Some "cyberdesk".
Proof.
  refine (proj1 (proj2 (proj2 (claim_patch_effect (vm_labels warm_vm)
                                 warm_vm)))
            "app" _ _);
    discriminate.
Defined.

Lemma sync_ignores_witness :
  calls (trace (exec api_server
                  (vmi_phase_change None (Some "Running") (vm_labels warm_vm))
                  ∅ cluster_with_pool))
  = [].
Proof.
  refine (proj1 (proj2 (sync_ignores_unbound_vmis api_server None
                          (Some "Running") (vm_labels warm_vm) ∅
                          cluster_with_pool _))).
  right. right. reflexivity.
Defined.

Lemma sync_writes_witness :
  calls (trace (exec api_server
                  (vmi_phase_change None (Some "Succeeded") desk_1_labels)
                  ∅ cluster_with_pool))
  = [supabase_select_status "desk-1";
     supabase_update_status "desk-1" "terminated"].
Proof.
  refine (proj2 (proj2 (sync_writes_only_on_mismatch api_server None
                          "Succeeded" desk_1_labels "desk-1" (Some [])
                          cluster_with_pool ∅ cluster_with_pool _ _ _)));
    reflexivity.
Defined.

Lemma ready_notification_witness :
  calls (trace (exec api_server
                  (vmi_ready_watcher (Some "http://gateway") valid_url None
                     (Some [ {| cond_type := Some "Ready";
                                cond_status := Some "True" |} ])
                     desk_1_labels)
                  ∅ cluster_with_pool))
  = [urlopen_post "http://gateway/cyberdesk/desk-1/ready" 10]
  ∧ calls (trace (exec api_server
                    (vmi_ready_watcher (Some "gateway") valid_url None
                       (Some [ {| cond_type := Some "Ready";
                                  cond_status := Some "True" |} ])
                       desk_1_labels)
                    ∅ cluster_with_pool))
    = [].
Proof.
  split.
  - refine (proj2 (proj2 (proj2 (proj2 (proj2 (proj2
              (ready_notification_on_transition api_server
                 (Some "http://gateway") valid_url None
                 (Some [ {| cond_type := Some "Ready";
                            cond_status := Some "True" |} ])
                 desk_1_labels ∅ cluster_with_pool))))))
              "desk-1" "http://gateway" []
              {| cond_type := Some "Ready"; cond_status := Some "True" |} []
              _ _ _ _ _ _ _ _).
    + reflexivity.
    + reflexivity.
    + reflexivity.
    + reflexivity.
    + reflexivity.
    + apply Forall_nil_2.
    + split; reflexivity.
    + intros c' Hin. by apply elem_of_nil in Hin.
  - refine (proj1 (proj2 (proj2 (proj2 (proj2 (proj2
              (ready_notification_on_transition api_server
                 (Some "gateway") valid_url None
                 (Some [ {| cond_type := Some "Ready";
                            cond_status := Some "True" |} ])
                 desk_1_labels ∅ cluster_with_pool))))))
              "desk-1" "gateway" _ _ _);
      reflexivity.
Defined.

Lemma delete_while_cloning_witness :
  calls (trace (exec api_server
                  (cyberdesk_delete "kubevirt" "desk-1"
                     (status_after ∅ (patch (reconcile_desk_1 ∅ empty_cluster))))
                  ∅ empty_cluster))
  = [delete_clone "kubevirt" "clone-for-desk-1"].
Proof.
  refine (proj1 (proj2 (delete_while_cloning_leaves_the_vm api_server
                          "kubevirt" None valid_url isoformat _ "clone-for-desk-1"
                          "desk-1" ∅ empty_cluster _ _))).
  - apply reachable_reconciled, reachable_new.
  - reflexivity.
Defined.

Lemma timer_witness :
  patch (exec api_server
           (cyberdesk_timeout_check decimal_fromisoformat "desk-1"
              "cyberdesk-system"
              (status_after ∅
                 (patch (exec api_server
                           (cyberdesk_create "kubevirt" None valid_url decimal_isoformat
                              (Some 600000) "desk-1" ∅ 0)
                           ∅ cluster_with_pool))))
           ∅ cluster_with_pool)
  = ∅.
Proof.
  refine (proj1 (timer_reads_what_the_reconciler_wrote api_server "kubevirt"
                   None valid_url decimal_isoformat decimal_fromisoformat _ "desk-1"
                   "cyberdesk-system" ∅ cluster_with_pool _ _ _)).
  - exact decimal_fromisoformat_isoformat.
  - exact decimal_isoformat_nonempty.
  - apply reachable_reconciled, reachable_new.
Defined.
